(** * setprotocol.js: rebalancing assertions and Set token queries

    A shallow embedding of [RebalancingAssertions] (the client-side guards
    that run before a rebalancing transaction is submitted) and of the
    issuance queries of [SetTokenAPI], followed by the properties of these
    functions.

    Conventions of the embedding:
    - a [BigNumber] read from a contract is an integer, a [Z]; the methods
      used by the code ([eq], [greaterThan], [modulo], [toNumber], ...) are
      written out below;
    - an [Address] is a JavaScript string;
    - an [async] function is a function to [Result]: [Ok v] is a promise
      that resolves to [v], [Throw e] a promise rejected with [e];
    - the contracts are read through a [Web3] record; [Date.now()] is a
      field of it. *)

From stdpp Require Import base decidable option list numbers strings.

Local Open Scope string_scope.
Local Open Scope Z_scope.

(** ** Promises *)

Inductive Result (E A : Type) : Type :=
| Ok (value : A)
| Throw (reason : E).
Arguments Ok {E A} value.
Arguments Throw {E A} reason.

#[global] Instance Result_ret {E} : MRet (Result E) := λ A v, Ok v.
#[global] Instance Result_bind {E} : MBind (Result E) := λ A B k m,
  match m with
  | Ok v => k v
  | Throw e => Throw e
  end.
#[global] Instance Result_throw {E} : MThrow E (Result E) := λ A e, Throw e.

(** [Promise.all] over promises that were all dispatched before the first
    one is awaited.  The promises settle in an order that the environment
    chooses (the order in which the node answers the requests): [order]
    lists the array indices in that order.  [Promise.all] rejects with the
    reason of the first promise that is seen to reject, and resolves to the
    array of values when none does.  The model is of promises that all
    settle: [order] is to list every index (a permutation of the indices);
    a rejection found in a prefix of the order is the outcome whatever
    follows, while the resolved outcome is meant for a complete order
    only. *)
Fixpoint firstRejection {E A} (promises : list (Result E A)) (order : list nat)
  : option (nat * E) :=
  match order with
  | [] => None
  | i :: rest =>
      match promises !! i with
      | Some (Throw e) => Some (i, e)
      | _ => firstRejection promises rest
      end
  end.

Definition resolvedValues {E A} (promises : list (Result E A)) : list A :=
  omap (λ p, match p with Ok v => Some v | Throw _ => None end) promises.

Definition Promise_all {E A} (promises : list (Result E A)) (order : list nat)
  : Result E (list A) :=
  match firstRejection promises order with
  | Some (_, e) => Throw e
  | None => Ok (resolvedValues promises)
  end.

(** ** BigNumber (bignumber.js) on integers *)

Module BigNumber.

Definition eq (x y : Z) : bool := x =? y.
Definition greaterThan (x y : Z) : bool := y <? x.
Definition greaterThanOrEqualTo (x y : Z) : bool := y <=? x.
Definition lessThan (x y : Z) : bool := x <? y.
Definition add (x y : Z) : Z := x + y.
Definition mul (x y : Z) : Z := x * y.

(** [x.modulo(y)] with the default [MODULO_MODE] (the remainder has the
    sign of the dividend, as JavaScript's [%]); [None] is [NaN], the
    result for a zero divisor. *)
Definition modulo (x y : Z) : option Z :=
  if y =? 0 then None else Some (Z.rem x y).

Definition isZero (x : option Z) : bool :=
  match x with
  | Some r => r =? 0
  | None => false
  end.

(** [x.toString()], kept as a term: the error messages only embed it. *)
Inductive Printed : Type := toString (x : Z).

(** A JavaScript number that holds an integer, or an infinity. *)
Inductive Number : Type :=
| Finite (value : Z)
| Infinity (negative : bool).

(** Nearest integer with a 53-bit significand, ties to even. *)
Definition round53 (n : Z) : Z :=
  let a := Z.abs n in
  let drop := Z.log2 a - 52 in
  if drop <=? 0 then n
  else
    let q := a / 2 ^ drop in
    let r := a mod 2 ^ drop in
    let half := 2 ^ (drop - 1) in
    let q' := if r <? half then q
              else if half <? r then q + 1
              else if Z.even q then q else q + 1 in
    Z.sgn n * (q' * 2 ^ drop).

(** [x.toNumber()]: the double nearest to [x]. *)
Definition toNumber (x : Z) : Number :=
  let r := round53 x in
  if 2 ^ 1024 <=? Z.abs r then Infinity (r <? 0) else Finite r.

(** [x.eq(y)] where [x] may be [NaN]: [NaN] equals no number. *)
Definition eqNaN (x : option Z) (y : Z) : bool :=
  match x with
  | Some r => eq r y
  | None => false
  end.

End BigNumber.

(** [Number.MAX_SAFE_INTEGER] *)
Definition MAX_SAFE_INTEGER : Z := 2 ^ 53 - 1.

(** ** lodash *)

Module lodash.

(** [_.indexOf(array, value)]: the first index of [value], or [-1]. *)
Definition indexOf (array : list string) (value : string) : Z :=
  match list_find (λ x, x = value) array with
  | Some (i, _) => Z.of_nat i
  | None => -1
  end.

End lodash.

(** [array[i]] for an integer [i]; [None] is [undefined]. *)
Definition at_index {A} (array : list A) (i : Z) : option A :=
  if i <? 0 then None else array !! Z.to_nat i.

(** [s.toLowerCase()] on ASCII, the normalisation the specification asks
    for before two addresses are compared. *)
Definition toLowerCase_ascii (c : Ascii.ascii) : Ascii.ascii :=
  let n := Ascii.nat_of_ascii c in
  if (Nat.leb 65 n && Nat.leb n 90)%bool then Ascii.ascii_of_nat (n + 32) else c.

Fixpoint toLowerCase (s : string) : string :=
  match s with
  | EmptyString => EmptyString
  | String c rest => String (toLowerCase_ascii c) (toLowerCase rest)
  end.

(** ** Types of [types/common.ts] and the error messages *)

Definition Address : Type := string.

Module RebalancingState.
Definition DEFAULT : Z := 0.
Definition PROPOSAL : Z := 1.
Definition REBALANCE : Z := 2.
End RebalancingState.

Module Component.
Record t : Type := {
  address : option Address;   (* [components[index]], [None] is [undefined] *)
  unit : Z;
}.
End Component.

(** The largest time value of a JavaScript [Date], in milliseconds on
    either side of the epoch. *)
Definition MAX_DATE : Z := 8640000000000000.

(** What [moment(n).format(fmt)] prints: for an instant a [Date] can hold,
    the date of that instant, kept as a term (two terms may well print
    alike, so only equalities are drawn from it); otherwise the text
    'Invalid date', one and the same for every such [n]. *)
Inductive FormattedDate : Type :=
| Formatted (milliseconds : Z) (fmt : string)
| InvalidDate.

Definition moment_format (n : BigNumber.Number) (fmt : string) : FormattedDate :=
  match n with
  | BigNumber.Finite milliseconds =>
      if Z.abs milliseconds <=? MAX_DATE
      then Formatted milliseconds fmt
      else InvalidDate
  | BigNumber.Infinity _ => InvalidDate
  end.

(** One constructor for each message of [errors] that the code throws,
    with the arguments the code passes. *)
Inductive Error : Type :=
| REBALANCE_IN_PROGRESS (rebalancingSetTokenAddress : Address)
| INCORRECT_STATE (rebalancingSetTokenAddress : Address) (expected : string)
| NOT_REBALANCING_MANAGER (caller : Address)
| INSUFFICIENT_TIME_PASSED (nextRebalanceFormattedDate : FormattedDate)
| NOT_ENOUGH_SETS_REBALANCED (rebalancingSetTokenAddress : Address)
    (minimumBid remainingCurrentSets : BigNumber.Printed)
| BID_AMOUNT_EXCEEDS_REMAINING_CURRENT_SETS
    (remainingCurrentSets bidQuantity : BigNumber.Printed)
| BID_AMOUNT_NOT_MULTIPLE_OF_MINIMUM_BID
    (bidQuantity minimumBid : BigNumber.Printed)
| INSUFFICIENT_BALANCE (component : Address) (required actual : Z)
| QUANTITY_NEEDS_TO_BE_POSITIVE (quantity : Z)
| IS_NOT_COMPONENT (setAddress componentAddress : Address)
| BIGNUMBER_NOT_A_NUMBER
| TYPE_ERROR_UNDEFINED (property : string).

Abbreviation Promise := (Result Error).

(** ** The contracts, as the code reads them *)

Record RebalancingSetTokenContract : Type := {
  rebalanceState : Z;
  manager : Address;
  lastRebalanceTimestamp : Z;
  rebalanceInterval : Z;
  proposalStartTime : Z;
  proposalPeriod : Z;
  minimumBid : Z;
  remainingCurrentSets : Z;
  getBidPrice : Z → list Z * list Z;   (* inflow and outflow arrays *)
  getCombinedTokenArray : list Address;
}.

(** An ERC20 wrapper bound to a token address. *)
Record DetailedERC20Contract : Type := {
  erc20_address : Address;
}.

(** The chain as one call sees it.  [Contract.at] is taken to resolve for
    every address; a failing read is none of the violations below. *)
Record Web3 : Type := {
  RebalancingSetTokenContract_at : Address → RebalancingSetTokenContract;
  balanceOf : Address → Address → Z;   (* token, then owner *)
  Date_now : Z;                        (* [Date.now()], milliseconds *)
}.

Definition DetailedERC20Contract_at (component : Address) : DetailedERC20Contract :=
  {| erc20_address := component |}.

(** ** ERC20Assertions *)

Module ERC20Assertions.

(** Modelled from the spec: [ERC20Assertions.hasSufficientBalanceAsync] is
    called by [hasSufficientBalances] but is not among the sources.  The
    specification has it read the owner's balance of the component and fail
    with [InsufficientBalance(component, required, actual)] on a shortfall,
    the boundary included ([balance >= required] passes).  A required
    balance that is [undefined] (an inflow array shorter than the token
    array) makes the BigNumber comparison raise. *)
Definition hasSufficientBalanceAsync (web3 : Web3)
    (tokenAddress ownerAddress : Address) (requiredBalance : option Z)
  : Promise unit :=
  match requiredBalance with
  | None => Throw BIGNUMBER_NOT_A_NUMBER
  | Some required =>
      let userBalance := balanceOf web3 tokenAddress ownerAddress in
      if BigNumber.lessThan userBalance required
      then Throw (INSUFFICIENT_BALANCE tokenAddress required userBalance)
      else Ok tt
  end.

End ERC20Assertions.

(** ** RebalancingAssertions *)

Module RebalancingAssertions.

(** Throws if given rebalancingSetToken in Rebalance state *)
Definition isNotInRebalanceState (web3 : Web3) (rebalancingSetTokenAddress : Address)
  : Promise unit :=
  let rebalancingSetTokenInstance :=
    RebalancingSetTokenContract_at web3 rebalancingSetTokenAddress in
  let currentState := rebalanceState rebalancingSetTokenInstance in
  if BigNumber.eq currentState RebalancingState.REBALANCE
  then Throw (REBALANCE_IN_PROGRESS rebalancingSetTokenAddress)
  else Ok tt.

(** Throws if given rebalancingSetToken is not in Proposal state *)
Definition isInProposalState (web3 : Web3) (rebalancingSetTokenAddress : Address)
  : Promise unit :=
  let rebalancingSetTokenInstance :=
    RebalancingSetTokenContract_at web3 rebalancingSetTokenAddress in
  let currentState := rebalanceState rebalancingSetTokenInstance in
  if negb (BigNumber.eq currentState RebalancingState.PROPOSAL)
  then Throw (INCORRECT_STATE rebalancingSetTokenAddress "Proposal")
  else Ok tt.

(** Throws if given rebalancingSetToken is not in Rebalance state *)
Definition isInRebalanceState (web3 : Web3) (rebalancingSetTokenAddress : Address)
  : Promise unit :=
  let rebalancingSetTokenInstance :=
    RebalancingSetTokenContract_at web3 rebalancingSetTokenAddress in
  let currentState := rebalanceState rebalancingSetTokenInstance in
  if negb (BigNumber.eq currentState RebalancingState.REBALANCE)
  then Throw (INCORRECT_STATE rebalancingSetTokenAddress "Rebalance")
  else Ok tt.

(** Throws if caller of rebalancingSetToken is not manager.  [manager !=
    caller] on two strings compares them character by character. *)
Definition isManager (web3 : Web3) (rebalancingSetTokenAddress caller : Address)
  : Promise unit :=
  let rebalancingSetTokenInstance :=
    RebalancingSetTokenContract_at web3 rebalancingSetTokenAddress in
  let manager := manager rebalancingSetTokenInstance in
  if negb (String.eqb manager caller)
  then Throw (NOT_REBALANCING_MANAGER caller)
  else Ok tt.

Definition dateFormat : string := "dddd, MMMM Do YYYY, h:mm:ss a".

(** Throws if not enough time passed between last rebalance on rebalancing
    set token *)
Definition sufficientTimeBetweenRebalance (web3 : Web3)
    (rebalancingSetTokenAddress : Address) : Promise unit :=
  let rebalancingSetTokenInstance :=
    RebalancingSetTokenContract_at web3 rebalancingSetTokenAddress in
  let lastRebalanceTime := lastRebalanceTimestamp rebalancingSetTokenInstance in
  let rebalanceInterval := rebalanceInterval rebalancingSetTokenInstance in
  let nextAvailableRebalance :=
    BigNumber.mul (BigNumber.add lastRebalanceTime rebalanceInterval) 1000 in
  let currentTimeStamp := Date_now web3 in
  if BigNumber.greaterThan nextAvailableRebalance currentTimeStamp
  then
    let nextRebalanceFormattedDate :=
      moment_format (BigNumber.toNumber nextAvailableRebalance) dateFormat in
    Throw (INSUFFICIENT_TIME_PASSED nextRebalanceFormattedDate)
  else Ok tt.

(** Throws if not enough time passed in proposal state *)
Definition sufficientTimeInProposalState (web3 : Web3)
    (rebalancingSetTokenAddress : Address) : Promise unit :=
  let rebalancingSetTokenInstance :=
    RebalancingSetTokenContract_at web3 rebalancingSetTokenAddress in
  let proposalStartTime := proposalStartTime rebalancingSetTokenInstance in
  let proposalPeriod := proposalPeriod rebalancingSetTokenInstance in
  let nextAvailableRebalance :=
    BigNumber.mul (BigNumber.add proposalStartTime proposalPeriod) 1000 in
  let currentTimeStamp := Date_now web3 in
  if BigNumber.greaterThan nextAvailableRebalance currentTimeStamp
  then
    let nextRebalanceFormattedDate :=
      moment_format (BigNumber.toNumber nextAvailableRebalance) dateFormat in
    Throw (INSUFFICIENT_TIME_PASSED nextRebalanceFormattedDate)
  else Ok tt.

(** Throws if not enough current sets rebalanced in auction *)
Definition enoughSetsRebalanced (web3 : Web3) (rebalancingSetTokenAddress : Address)
  : Promise unit :=
  let rebalancingSetTokenInstance :=
    RebalancingSetTokenContract_at web3 rebalancingSetTokenAddress in
  let minimumBid := minimumBid rebalancingSetTokenInstance in
  let remainingCurrentSets := remainingCurrentSets rebalancingSetTokenInstance in
  if BigNumber.greaterThanOrEqualTo remainingCurrentSets minimumBid
  then Throw (NOT_ENOUGH_SETS_REBALANCED rebalancingSetTokenAddress
                (BigNumber.toString minimumBid)
                (BigNumber.toString remainingCurrentSets))
  else Ok tt.

(** Throws if user bids to rebalance an amount of current set token that is
    greater than amount of current set token remaining. *)
Definition bidAmountLessThanRemainingSets (web3 : Web3)
    (rebalancingSetTokenAddress : Address) (bidQuantity : Z) : Promise unit :=
  let rebalancingSetTokenInstance :=
    RebalancingSetTokenContract_at web3 rebalancingSetTokenAddress in
  let remainingCurrentSets := remainingCurrentSets rebalancingSetTokenInstance in
  if BigNumber.greaterThan bidQuantity remainingCurrentSets
  then Throw (BID_AMOUNT_EXCEEDS_REMAINING_CURRENT_SETS
                (BigNumber.toString remainingCurrentSets)
                (BigNumber.toString bidQuantity))
  else Ok tt.

(** Throws if user bids to rebalance an amount of current set token that is
    not a multiple of the minimumBid. *)
Definition bidIsMultipleOfMinimumBid (web3 : Web3)
    (rebalancingSetTokenAddress : Address) (bidQuantity : Z) : Promise unit :=
  let rebalancingSetTokenInstance :=
    RebalancingSetTokenContract_at web3 rebalancingSetTokenAddress in
  let minimumBid := minimumBid rebalancingSetTokenInstance in
  if negb (BigNumber.isZero (BigNumber.modulo bidQuantity minimumBid))
  then Throw (BID_AMOUNT_NOT_MULTIPLE_OF_MINIMUM_BID
                (BigNumber.toString bidQuantity)
                (BigNumber.toString minimumBid))
  else Ok tt.

(** The promises that [_.map(componentInstances, async ...)] returns: one
    balance check for each component, all of them started before any is
    awaited.  [inflowArray[index]] is [undefined] past the end of the
    inflow array. *)
Definition userHasSufficientBalancePromises (web3 : Web3) (ownerAddress : Address)
    (inflowArray : list Z) (componentInstances : list DetailedERC20Contract)
  : list (Promise unit) :=
  imap (λ index componentInstance,
          let requiredBalance := inflowArray !! index in
          ERC20Assertions.hasSufficientBalanceAsync web3
            (erc20_address componentInstance) ownerAddress requiredBalance)
       componentInstances.

(** Throws if the given user doesn't have a sufficient balance for a
    component token needed to be injected for a bid.  [settled] is the
    order in which the balance checks settle.  The first [Promise.all], over
    [DetailedERC20Contract.at], has nothing to reject with and resolves to
    the instances in array order. *)
Definition hasSufficientBalances (web3 : Web3)
    (rebalancingSetTokenAddress ownerAddress : Address) (quantity : Z)
    (settled : list nat) : Promise unit :=
  let rebalancingSetTokenInstance :=
    RebalancingSetTokenContract_at web3 rebalancingSetTokenAddress in
  let '(inflowArray, outflowArray) :=
    getBidPrice rebalancingSetTokenInstance quantity in
  let components := getCombinedTokenArray rebalancingSetTokenInstance in
  (* Create component ERC20 token instances *)
  let componentInstances := DetailedERC20Contract_at <$> components in
  (* Assert that user has sufficient balance for each component token *)
  Promise_all
    (userHasSufficientBalancePromises web3 ownerAddress inflowArray componentInstances)
    settled ;;
  Ok tt.

Section Allowances.

(** [ERC20Assertions.hasSufficientAllowanceAsync(tokenAddress, ownerAddress,
    spenderAddress, requiredBalance)], which is not among the sources: any
    function that resolves or throws. *)
Variable hasSufficientAllowanceAsync :
  Address → Address → Address → option Z → Promise unit.

(** The promises that [_.map(componentInstances, async ...)] returns, one
    allowance check for each component. *)
Definition userHasSufficientAllowancePromises (ownerAddress spenderAddress : Address)
    (inflowArray : list Z) (componentInstances : list DetailedERC20Contract)
  : list (Promise unit) :=
  imap (λ index componentInstance,
          let requiredBalance := inflowArray !! index in
          hasSufficientAllowanceAsync (erc20_address componentInstance)
            ownerAddress spenderAddress requiredBalance)
       componentInstances.

(** Throws if the given user doesn't have a sufficient allowance for a
    component token needed to be injected for a bid.  [settled] is the
    order in which the allowance checks settle. *)
Definition hasSufficientAllowances (web3 : Web3)
    (rebalancingSetTokenAddress ownerAddress spenderAddress : Address)
    (quantity : Z) (settled : list nat) : Promise unit :=
  let rebalancingSetTokenInstance :=
    RebalancingSetTokenContract_at web3 rebalancingSetTokenAddress in
  let '(inflowArray, outflowArray) :=
    getBidPrice rebalancingSetTokenInstance quantity in
  let components := getCombinedTokenArray rebalancingSetTokenInstance in
  (* Create component ERC20 token instances *)
  let componentInstances := DetailedERC20Contract_at <$> components in
  (* Assert that user has sufficient allowances for each component token *)
  Promise_all
    (userHasSufficientAllowancePromises ownerAddress spenderAddress inflowArray
       componentInstances)
    settled ;;
  Ok tt.

End Allowances.

End RebalancingAssertions.

(** ** SetTokenAPI *)

(** An entry of [SetDetails.components].  [getDetails] pairs every component
    address with [componentUnits[idx]], which is [undefined] ([None]) past
    the end of the units. *)
Module DetailedComponent.
Record t : Type := {
  address : Address;
  unit : option Z;
}.
End DetailedComponent.

Module SetDetails.
Record t : Type := {
  address : Address;
  factoryAddress : Address;
  name : string;
  symbol : string;
  naturalUnit : Z;
  components : list DetailedComponent.t;
}.
End SetDetails.

(** The reads of [SetTokenWrapper]. *)
Record SetTokenWrapper : Type := {
  naturalUnit : Address → Z;
  getUnits : Address → list Z;
  getComponents : Address → list Address;
}.

(** The assertion library handed to the constructor of [SetTokenAPI].
    [schema.isValidAddress(variableName, value)] returns or throws. *)
Record Assertions : Type := {
  schema_isValidAddress : string → Address → Promise unit;
}.

Module CommonAssertions.

(** Modelled from the spec: [assert.common.greaterThanZero] is not among
    the sources.  The specification's [requirePositiveQuantity] fails if
    [quantity <= 0]; the failure is the message the caller passes. *)
Definition greaterThanZero (quantity : Z) (errorMessage : Error) : Promise unit :=
  if quantity <=? 0 then Throw errorMessage else Ok tt.

End CommonAssertions.

Module SetTokenAPI.

Section WithCollaborators.

(** The fields of the class, and [calculatePartialAmount] of [util]. *)
Variable assert : Assertions.
Variable setToken : SetTokenWrapper.
Variable calculatePartialAmount : Z → Z → Z → Z.

Definition assertcalculateComponentAmountsForIssuance
    (setAddress : Address) (quantity : Z) : Promise unit :=
  schema_isValidAddress assert "setAddress" setAddress ;;
  CommonAssertions.greaterThanZero quantity (QUANTITY_NEEDS_TO_BE_POSITIVE quantity).

Definition assertCalculateUnitTransferred
    (setAddress componentAddress : Address) (quantity : Z) : Promise unit :=
  schema_isValidAddress assert "setAddress" setAddress ;;
  schema_isValidAddress assert "componentAddress" componentAddress ;;
  CommonAssertions.greaterThanZero quantity (QUANTITY_NEEDS_TO_BE_POSITIVE quantity) ;;
  let componentAddresses := getComponents setToken setAddress in
  let componentIndex := lodash.indexOf componentAddresses componentAddress in
  if componentIndex <? 0
  then Throw (IS_NOT_COMPONENT setAddress componentAddress)
  else Ok tt.

(** Calculates the amounts of each component required for issuance or
    redemption for a quantity of the Set *)
Definition calculateComponentAmountsForIssuanceAsync
    (setAddress : Address) (quantity : Z) : Promise (list Component.t) :=
  assertcalculateComponentAmountsForIssuance setAddress quantity ;;
  let naturalUnit := naturalUnit setToken setAddress in
  let componentUnits := getUnits setToken setAddress in
  let components := getComponents setToken setAddress in
  Ok (imap (λ index componentUnit,
              {| Component.address := components !! index;
                 Component.unit :=
                   calculatePartialAmount componentUnit quantity naturalUnit |})
           componentUnits).

(** Calculates the required amount of a component token required for
    issuance or redemption for a quantity of the Set *)
Definition calculateComponentAmountForIssuanceAsync
    (setAddress componentAddress : Address) (quantity : Z) : Promise Z :=
  assertCalculateUnitTransferred setAddress componentAddress quantity ;;
  let components := getComponents setToken setAddress in
  let componentIndex := lodash.indexOf components componentAddress in
  amountsForIssuance ← calculateComponentAmountsForIssuanceAsync setAddress quantity ;
  match at_index amountsForIssuance componentIndex with
  | Some amount => Ok (Component.unit amount)
  | None => Throw (TYPE_ERROR_UNDEFINED "unit")
  end.

(** [setToken.factory], [erc20.name] and [erc20.symbol], reads of the
    wrappers, and [ZERO] of [constants]. *)
Variable factory : Address → Address.
Variable erc20_name : Address → string.
Variable erc20_symbol : Address → string.
Variable ZERO : Z.

(** Fetches the address of the factory that created the Set *)
Definition getFactoryAsync (setAddress : Address) : Promise Address :=
  schema_isValidAddress assert "setAddress" setAddress ;;
  Ok (factory setAddress).

(** Fetches the addresses of the component tokens that make up the Set *)
Definition getComponentsAsync (setAddress : Address) : Promise (list Address) :=
  schema_isValidAddress assert "setAddress" setAddress ;;
  Ok (getComponents setToken setAddress).

(** Fetches the natural unit of the Set *)
Definition getNaturalUnitAsync (setAddress : Address) : Promise Z :=
  schema_isValidAddress assert "setAddress" setAddress ;;
  Ok (naturalUnit setToken setAddress).

(** Fetches units of each component token that make up the Set *)
Definition getUnitsAsync (setAddress : Address) : Promise (list Z) :=
  schema_isValidAddress assert "setAddress" setAddress ;;
  Ok (getUnits setToken setAddress).

(** Fetches details of a Set comprised of factory address, name, symbol,
    natural unit, component addresses, and component units *)
Definition getDetails (setAddress : Address) : Promise SetDetails.t :=
  schema_isValidAddress assert "setAddress" setAddress ;;
  let factoryAddress := factory setAddress in
  let naturalUnit := naturalUnit setToken setAddress in
  let componentAddresses := getComponents setToken setAddress in
  let componentUnits := getUnits setToken setAddress in
  let name := erc20_name setAddress in
  let symbol := erc20_symbol setAddress in
  let components :=
    imap (λ idx address,
            {| DetailedComponent.address := address;
               DetailedComponent.unit := componentUnits !! idx |})
         componentAddresses in
  Ok {| SetDetails.address := setAddress;
        SetDetails.factoryAddress := factoryAddress;
        SetDetails.name := name;
        SetDetails.symbol := symbol;
        SetDetails.naturalUnit := naturalUnit;
        SetDetails.components := components |}.

Definition assertIsMultipleOfNaturalUnitAsync
    (setAddress : Address) (quantity : Z) : Promise unit :=
  schema_isValidAddress assert "setAddress" setAddress ;;
  CommonAssertions.greaterThanZero quantity (QUANTITY_NEEDS_TO_BE_POSITIVE quantity).

(** Validates whether the quantity of a Set to issue or redeem in is a
    multiple of the Set's natural unit *)
Definition isMultipleOfNaturalUnitAsync
    (setAddress : Address) (quantity : Z) : Promise bool :=
  assertIsMultipleOfNaturalUnitAsync setAddress quantity ;;
  let naturalUnit := naturalUnit setToken setAddress in
  Ok (BigNumber.eqNaN (BigNumber.modulo quantity naturalUnit) ZERO).

End WithCollaborators.

End SetTokenAPI.

(** ** A basket to compute on *)

Module Scenario.

Definition rebalancingSet : Address := "0x1111111111111111111111111111111111111111".
Definition bidder : Address := "0x2222222222222222222222222222222222222222".
Definition componentA : Address := "0xaaaaaaaaaaaaaaaaaaaaaaaaaaaaaaaaaaaaaaaa".
Definition componentB : Address := "0xbbbbbbbbbbbbbbbbbbbbbbbbbbbbbbbbbbbbbbbb".
Definition stranger : Address := "0xcccccccccccccccccccccccccccccccccccccccc".

(** The manager as the contract returns it, and the same twenty bytes
    written with upper-case hexadecimal digits. *)
Definition managerOnChain : Address := "0xabcdefabcdefabcdefabcdefabcdefabcdefabcd".
Definition managerUpperCase : Address := "0xABCDEFABCDEFABCDEFABCDEFABCDEFABCDEFABCD".

(** A basket with [minimumBid = 100] and [remainingCurrentSets = 500] whose
    bids need 50 of each of two components. *)
Definition basket (state lastRebalance interval : Z) : RebalancingSetTokenContract :=
  {| rebalanceState := state;
     manager := managerOnChain;
     lastRebalanceTimestamp := lastRebalance;
     rebalanceInterval := interval;
     proposalStartTime := lastRebalance;
     proposalPeriod := interval;
     minimumBid := 100;
     remainingCurrentSets := 500;
     getBidPrice := λ _, ([50; 50], [0; 0]);
     getCombinedTokenArray := [componentA; componentB] |}.

Definition chain (state lastRebalance interval now : Z) (balance : Address → Z) : Web3 :=
  {| RebalancingSetTokenContract_at := λ _, basket state lastRebalance interval;
     balanceOf := λ token _, balance token;
     Date_now := now |}.

(** The bidder holds 40 of every component. *)
Definition poor : Address → Z := λ _, 40.

(** The bidder holds 50 of component A and 40 of component B. *)
Definition shortOfB : Address → Z :=
  λ token, if String.eqb token componentB then 40 else 50.

(** The bidder holds 40 of component A and 50 of component B. *)
Definition shortOfA : Address → Z :=
  λ token, if String.eqb token componentA then 40 else 50.

(** A last rebalance in October 2018 (seconds), a current time at that
    instant (milliseconds), and two rebalance intervals so long that the
    next rebalance lies one and two seconds beyond the last date JavaScript
    represents. *)
Definition lastRebalance : Z := 1540000000.
Definition now : Z := 1540000000000.
Definition longInterval : Z := 8640000000001 - lastRebalance.
Definition longerInterval : Z := 8640000000002 - lastRebalance.

(** A Set of two components, one unit of A and two of B per natural unit
    of 10. *)
Definition setToken : SetTokenWrapper :=
  {| naturalUnit := λ _, 10;
     getUnits := λ _, [1; 2];
     getComponents := λ _, [componentA; componentB] |}.

Definition acceptAll : Assertions :=
  {| schema_isValidAddress := λ _ _, Ok tt |}.

Definition partialAmount (principal numerator denominator : Z) : Z :=
  principal * numerator / denominator.

(** An assertion library whose schema accepts the strings of 42
    characters and throws on the others. *)
Definition lengthChecked : Assertions :=
  {| schema_isValidAddress := λ variableName value,
       if (String.length value =? 42)%nat then Ok tt
       else Throw (TYPE_ERROR_UNDEFINED variableName) |}.

(** A basket near the end of its auction: 50 sets remain, less than the
    minimum bid of 100. *)
Definition exhaustedChain : Web3 :=
  {| RebalancingSetTokenContract_at := λ _,
       {| rebalanceState := 2;
          manager := managerOnChain;
          lastRebalanceTimestamp := lastRebalance;
          rebalanceInterval := 0;
          proposalStartTime := lastRebalance;
          proposalPeriod := 0;
          minimumBid := 100;
          remainingCurrentSets := 50;
          getBidPrice := λ _, ([50; 50], [0; 0]);
          getCombinedTokenArray := [componentA; componentB] |};
     balanceOf := λ _ _, 40;
     Date_now := now |}.

(** An allowance check that finds every spender approved. *)
Definition approved : Address → Address → Address → option Z → Promise unit :=
  λ _ _ _ _, Ok tt.

Definition factoryAddress : Address := "0xffffffffffffffffffffffffffffffffffffffff".
Definition factoryOf : Address → Address := λ _, factoryAddress.
Definition nameOf : Address → string := λ _, "Stable Set".
Definition symbolOf : Address → string := λ _, "STBL".

(** A Set that reports three components and two units. *)
Definition lopsidedSet : SetTokenWrapper :=
  {| naturalUnit := λ _, 10;
     getUnits := λ _, [1; 2];
     getComponents := λ _, [componentA; componentB; stranger] |}.

End Scenario.

(** * Properties *)

Import RebalancingAssertions.

(** ** Phase guards *)

Lemma BigNumber_eq_true x y : BigNumber.eq x y = true ↔ x = y.
Proof. unfold BigNumber.eq. apply Z.eqb_eq. Qed.

Lemma BigNumber_eq_false x y : BigNumber.eq x y = false ↔ x ≠ y.
Proof. unfold BigNumber.eq. apply Z.eqb_neq. Qed.

Lemma isInProposalState_ok web3 rebalancingSetTokenAddress :
  isInProposalState web3 rebalancingSetTokenAddress = Ok tt ↔
  rebalanceState (RebalancingSetTokenContract_at web3 rebalancingSetTokenAddress)
    = RebalancingState.PROPOSAL.
Proof.
  unfold isInProposalState. rewrite <- BigNumber_eq_true.
  destruct (BigNumber.eq _ _); simpl; split; intros H; congruence.
Qed.

Lemma isInProposalState_throws web3 rebalancingSetTokenAddress :
  rebalanceState (RebalancingSetTokenContract_at web3 rebalancingSetTokenAddress)
    ≠ RebalancingState.PROPOSAL →
  isInProposalState web3 rebalancingSetTokenAddress
    = Throw (INCORRECT_STATE rebalancingSetTokenAddress "Proposal").
Proof.
  intros Hne%BigNumber_eq_false. unfold isInProposalState. by rewrite Hne.
Qed.

(** C7: [isInProposalState] throws [INCORRECT_STATE(address, 'Proposal')]
    when the basket is in phase Rebalance, and whenever its phase is not
    Proposal; it resolves when the phase is Proposal, and only then. *)
Theorem isInProposalState_phase web3 rebalancingSetTokenAddress :
  let currentState :=
    rebalanceState (RebalancingSetTokenContract_at web3 rebalancingSetTokenAddress) in
  (currentState = RebalancingState.REBALANCE →
   isInProposalState web3 rebalancingSetTokenAddress
     = Throw (INCORRECT_STATE rebalancingSetTokenAddress "Proposal")) ∧
  (currentState ≠ RebalancingState.PROPOSAL →
   isInProposalState web3 rebalancingSetTokenAddress
     = Throw (INCORRECT_STATE rebalancingSetTokenAddress "Proposal")) ∧
  (currentState = RebalancingState.PROPOSAL ↔
   isInProposalState web3 rebalancingSetTokenAddress = Ok tt).
Proof.
  intros currentState. split_and!.
  - intros Hs. apply isInProposalState_throws. fold currentState.
    rewrite Hs. discriminate.
  - apply isInProposalState_throws.
  - symmetry. apply isInProposalState_ok.
Qed.

(** C9: a phase value outside DEFAULT = 0, PROPOSAL = 1, REBALANCE = 2 (3,
    say) passes [isNotInRebalanceState] and fails both [isInProposalState]
    and [isInRebalanceState]: each guard compares the number read from the
    chain with one constant. *)
Theorem unknown_phase_guards web3 rebalancingSetTokenAddress :
  let currentState :=
    rebalanceState (RebalancingSetTokenContract_at web3 rebalancingSetTokenAddress) in
  currentState ≠ RebalancingState.DEFAULT →
  currentState ≠ RebalancingState.PROPOSAL →
  currentState ≠ RebalancingState.REBALANCE →
  isNotInRebalanceState web3 rebalancingSetTokenAddress = Ok tt ∧
  isInProposalState web3 rebalancingSetTokenAddress
    = Throw (INCORRECT_STATE rebalancingSetTokenAddress "Proposal") ∧
  isInRebalanceState web3 rebalancingSetTokenAddress
    = Throw (INCORRECT_STATE rebalancingSetTokenAddress "Rebalance").
Proof.
  intros currentState _ Hproposal%BigNumber_eq_false Hrebalance%BigNumber_eq_false.
  unfold isNotInRebalanceState, isInProposalState, isInRebalanceState.
  fold currentState. by rewrite Hproposal, Hrebalance.
Qed.

Lemma unknown_phase_guards_at_3 :
  isNotInRebalanceState (Scenario.chain 3 0 0 0 Scenario.poor) Scenario.rebalancingSet
    = Ok tt ∧
  isInProposalState (Scenario.chain 3 0 0 0 Scenario.poor) Scenario.rebalancingSet
    = Throw (INCORRECT_STATE Scenario.rebalancingSet "Proposal") ∧
  isInRebalanceState (Scenario.chain 3 0 0 0 Scenario.poor) Scenario.rebalancingSet
    = Throw (INCORRECT_STATE Scenario.rebalancingSet "Rebalance").
Proof.
  apply (unknown_phase_guards (Scenario.chain 3 0 0 0 Scenario.poor)
           Scenario.rebalancingSet); simpl; discriminate.
Defined.

(** ** The manager *)

(** C8, as amended: [isManager] throws [NOT_REBALANCING_MANAGER(caller)]
    exactly when [caller] and the manager read from the chain differ as
    strings, and resolves exactly when they are the same string.  No
    normalisation takes place before the comparison. *)
Theorem isManager_compares_strings web3 rebalancingSetTokenAddress caller :
  let manager :=
    manager (RebalancingSetTokenContract_at web3 rebalancingSetTokenAddress) in
  (isManager web3 rebalancingSetTokenAddress caller
     = Throw (NOT_REBALANCING_MANAGER caller) ↔ caller ≠ manager) ∧
  (isManager web3 rebalancingSetTokenAddress caller = Ok tt ↔ caller = manager).
Proof.
  intros mgr. unfold isManager. fold mgr.
  destruct (String.eqb_spec mgr caller) as [Heq|Hne]; simpl;
    split; split; intros; congruence.
Qed.

(** C8, as stated, fails: the manager and the caller are two encodings of
    one address, equal once lower-cased, and [isManager] still throws. *)
Lemma isManager_is_case_sensitive :
  toLowerCase Scenario.managerUpperCase = toLowerCase Scenario.managerOnChain ∧
  isManager (Scenario.chain 0 0 0 0 Scenario.poor) Scenario.rebalancingSet
    Scenario.managerUpperCase
    = Throw (NOT_REBALANCING_MANAGER Scenario.managerUpperCase).
Proof. split; reflexivity. Qed.

(** ** Time between rebalances *)

Lemma round53_safe n : Z.abs n ≤ MAX_SAFE_INTEGER → BigNumber.round53 n = n.
Proof.
  unfold MAX_SAFE_INTEGER, BigNumber.round53. intros Hn.
  destruct (Z.eq_dec n 0) as [->|Hn0]; [done|].
  assert (Z.log2 (Z.abs n) < 53) as Hlog.
  { apply Z.log2_lt_pow2; lia. }
  case_match eqn:Hdrop; [done|]. apply Z.leb_gt in Hdrop. lia.
Qed.

Lemma toNumber_safe n :
  Z.abs n ≤ MAX_SAFE_INTEGER → BigNumber.toNumber n = BigNumber.Finite n.
Proof.
  intros Hn. unfold BigNumber.toNumber. rewrite round53_safe by done.
  case_match eqn:Hbig; [|done]. apply Z.leb_le in Hbig.
  assert (2 ^ 53 < 2 ^ 1024) by (apply Z.pow_lt_mono_r; lia).
  unfold MAX_SAFE_INTEGER in Hn. lia.
Qed.

Lemma MAX_DATE_safe : MAX_DATE ≤ MAX_SAFE_INTEGER.
Proof. by vm_compute. Qed.

Lemma round53_large n : MAX_DATE < Z.abs n → MAX_DATE < Z.abs (BigNumber.round53 n).
Proof.
  intros Hn.
  destruct (Z.le_gt_cases (Z.abs n) MAX_SAFE_INTEGER) as [Hsafe|Hunsafe].
  { by rewrite round53_safe. }
  assert (2 ^ 53 ≤ Z.abs n) as Hbig by (unfold MAX_SAFE_INTEGER in Hunsafe; lia).
  assert (MAX_DATE < 2 ^ 53) as Hdate by (by vm_compute).
  unfold BigNumber.round53.
  set (a := Z.abs n) in *.
  assert (53 ≤ Z.log2 a) as Hlog by (apply Z.log2_le_pow2; lia).
  destruct (Z.log2_spec a) as [Hlow _]; [lia|].
  set (drop := Z.log2 a - 52) in *.
  rewrite (proj2 (Z.leb_gt drop 0)) by lia.
  assert (0 < 2 ^ drop) as Hpow by (apply Z.pow_pos_nonneg; lia).
  assert (2 ^ Z.log2 a = 2 ^ 52 * 2 ^ drop) as Hsplit.
  { rewrite <- Z.pow_add_r by lia. f_equal. unfold drop. lia. }
  assert (2 ^ 52 ≤ a / 2 ^ drop) as Hq.
  { apply Z.div_le_lower_bound; lia. }
  assert (2 ≤ 2 ^ drop) as Hdrop.
  { change 2 with (2 ^ 1) at 1. apply Z.pow_le_mono_r; lia. }
  set (q := a / 2 ^ drop) in *.
  set (q' := if a `mod` 2 ^ drop <? 2 ^ (drop - 1) then q
             else if 2 ^ (drop - 1) <? a `mod` 2 ^ drop then q + 1
             else if Z.even q then q else q + 1).
  assert (q ≤ q') as Hq' by (unfold q'; repeat case_match; lia).
  assert (2 ^ 53 ≤ q' * 2 ^ drop) as Hresult.
  { change (2 ^ 53) with (2 ^ 52 * 2). nia. }
  rewrite Z.abs_mul.
  replace (Z.abs (Z.sgn n)) with 1; [lia|].
  subst a. lia.
Qed.

Lemma moment_format_valid n fmt :
  Z.abs n ≤ MAX_DATE →
  moment_format (BigNumber.toNumber n) fmt = Formatted n fmt.
Proof.
  intros Hn. rewrite toNumber_safe by (pose proof MAX_DATE_safe; lia).
  simpl. by rewrite (proj2 (Z.leb_le _ _) Hn).
Qed.

Lemma moment_format_invalid n fmt :
  MAX_DATE < Z.abs n →
  moment_format (BigNumber.toNumber n) fmt = InvalidDate.
Proof.
  intros Hn%round53_large. unfold BigNumber.toNumber.
  case_match; [done|]. simpl.
  by rewrite (proj2 (Z.leb_gt _ _) Hn).
Qed.

(** C3, as amended: [sufficientTimeBetweenRebalance] computes
    [nextAvailable = (lastRebalanceTimestamp + rebalanceInterval) * 1000]
    exactly.  When [now < nextAvailable] it throws
    [INSUFFICIENT_TIME_PASSED] with what moment prints for
    [nextAvailable.toNumber()]: the date of exactly [nextAvailable] as long
    as [nextAvailable] is a time a JavaScript date can hold (at most
    8.64e15 ms in absolute value), and 'Invalid date', which carries no
    value, beyond that.  When [now >= nextAvailable] it resolves, the
    boundary [now = nextAvailable] included. *)
Theorem sufficientTimeBetweenRebalance_boundary web3 rebalancingSetTokenAddress :
  let token := RebalancingSetTokenContract_at web3 rebalancingSetTokenAddress in
  let nextAvailable :=
    (lastRebalanceTimestamp token + rebalanceInterval token) * 1000 in
  (Date_now web3 < nextAvailable →
   sufficientTimeBetweenRebalance web3 rebalancingSetTokenAddress
     = Throw (INSUFFICIENT_TIME_PASSED
                (moment_format (BigNumber.toNumber nextAvailable) dateFormat))) ∧
  (Z.abs nextAvailable ≤ MAX_DATE →
   moment_format (BigNumber.toNumber nextAvailable) dateFormat
     = Formatted nextAvailable dateFormat) ∧
  (MAX_DATE < Z.abs nextAvailable →
   moment_format (BigNumber.toNumber nextAvailable) dateFormat = InvalidDate) ∧
  (nextAvailable ≤ Date_now web3 →
   sufficientTimeBetweenRebalance web3 rebalancingSetTokenAddress = Ok tt) ∧
  (Date_now web3 = nextAvailable →
   sufficientTimeBetweenRebalance web3 rebalancingSetTokenAddress = Ok tt).
Proof.
  intros token nextAvailable.
  assert (nextAvailable ≤ Date_now web3 →
          sufficientTimeBetweenRebalance web3 rebalancingSetTokenAddress = Ok tt)
    as Hlate.
  { intros Hle. unfold sufficientTimeBetweenRebalance, BigNumber.greaterThan,
      BigNumber.mul, BigNumber.add.
    fold token. fold nextAvailable.
    by rewrite (proj2 (Z.ltb_ge _ _) Hle). }
  split_and!.
  - intros Hlt. unfold sufficientTimeBetweenRebalance, BigNumber.greaterThan,
      BigNumber.mul, BigNumber.add.
    fold token. fold nextAvailable.
    by rewrite (proj2 (Z.ltb_lt _ _) Hlt).
  - apply moment_format_valid.
  - apply moment_format_invalid.
  - exact Hlate.
  - intros Heq. apply Hlate. lia.
Qed.

(** C3, as stated, fails: the error does not always carry [nextAvailable].
    Two baskets whose next rebalance is 8640000000001000 ms and
    8640000000002000 ms, one and two seconds past the last JavaScript date,
    are both asked before that time and throw the very same error, with
    'Invalid date' in it. *)
Lemma sufficientTimeBetweenRebalance_invalid_date :
  (Scenario.lastRebalance + Scenario.longInterval) * 1000 = 8640000000001000 ∧
  (Scenario.lastRebalance + Scenario.longerInterval) * 1000 = 8640000000002000 ∧
  Scenario.now < 8640000000001000 ∧
  sufficientTimeBetweenRebalance
    (Scenario.chain 0 Scenario.lastRebalance Scenario.longInterval Scenario.now
       Scenario.poor)
    Scenario.rebalancingSet
    = Throw (INSUFFICIENT_TIME_PASSED InvalidDate) ∧
  sufficientTimeBetweenRebalance
    (Scenario.chain 0 Scenario.lastRebalance Scenario.longerInterval Scenario.now
       Scenario.poor)
    Scenario.rebalancingSet
    = Throw (INSUFFICIENT_TIME_PASSED InvalidDate).
Proof. split_and!; by vm_compute. Qed.

(** ** Auction progress and bid quantity *)

(** C1: with [minimumBid > 0], [enoughSetsRebalanced] throws
    [NOT_ENOUGH_SETS_REBALANCED] exactly when
    [remainingCurrentSets >= minimumBid] and resolves exactly when
    [remainingCurrentSets < minimumBid]. *)
Theorem enoughSetsRebalanced_iff web3 rebalancingSetTokenAddress :
  let token := RebalancingSetTokenContract_at web3 rebalancingSetTokenAddress in
  0 < minimumBid token →
  (enoughSetsRebalanced web3 rebalancingSetTokenAddress
     = Throw (NOT_ENOUGH_SETS_REBALANCED rebalancingSetTokenAddress
                (BigNumber.toString (minimumBid token))
                (BigNumber.toString (remainingCurrentSets token)))
   ↔ minimumBid token ≤ remainingCurrentSets token) ∧
  (enoughSetsRebalanced web3 rebalancingSetTokenAddress = Ok tt
   ↔ remainingCurrentSets token < minimumBid token).
Proof.
  intros token _. unfold enoughSetsRebalanced, BigNumber.greaterThanOrEqualTo.
  fold token.
  destruct (Z.leb_spec (minimumBid token) (remainingCurrentSets token));
    split; split; first [done | lia].
Qed.

Lemma enoughSetsRebalanced_iff_scenario :
  (enoughSetsRebalanced (Scenario.chain 2 0 0 0 Scenario.poor) Scenario.rebalancingSet
     = Throw (NOT_ENOUGH_SETS_REBALANCED Scenario.rebalancingSet
                (BigNumber.toString 100) (BigNumber.toString 500))
   ↔ 100 ≤ 500) ∧
  (enoughSetsRebalanced (Scenario.chain 2 0 0 0 Scenario.poor) Scenario.rebalancingSet
     = Ok tt
   ↔ 500 < 100).
Proof.
  apply (enoughSetsRebalanced_iff (Scenario.chain 2 0 0 0 Scenario.poor)
           Scenario.rebalancingSet).
  simpl. lia.
Defined.

(** C5: [bidAmountLessThanRemainingSets] throws
    [BID_AMOUNT_EXCEEDS_REMAINING_CURRENT_SETS] exactly when
    [bidQuantity > remainingCurrentSets] and resolves otherwise; a bid for
    exactly the remaining sets resolves. *)
Theorem bidAmountLessThanRemainingSets_iff web3 rebalancingSetTokenAddress bidQuantity :
  let remaining :=
    remainingCurrentSets
      (RebalancingSetTokenContract_at web3 rebalancingSetTokenAddress) in
  (bidAmountLessThanRemainingSets web3 rebalancingSetTokenAddress bidQuantity
     = Throw (BID_AMOUNT_EXCEEDS_REMAINING_CURRENT_SETS
                (BigNumber.toString remaining) (BigNumber.toString bidQuantity))
   ↔ remaining < bidQuantity) ∧
  (bidAmountLessThanRemainingSets web3 rebalancingSetTokenAddress bidQuantity = Ok tt
   ↔ bidQuantity ≤ remaining) ∧
  bidAmountLessThanRemainingSets web3 rebalancingSetTokenAddress remaining = Ok tt.
Proof.
  intros remaining. unfold bidAmountLessThanRemainingSets, BigNumber.greaterThan.
  fold remaining. rewrite Z.ltb_irrefl.
  destruct (Z.ltb_spec remaining bidQuantity);
    split_and!; try split; first [done | lia].
Qed.

Lemma modulo_isZero bidQuantity minimumBid :
  0 < minimumBid →
  BigNumber.isZero (BigNumber.modulo bidQuantity minimumBid) = true
  ↔ bidQuantity `mod` minimumBid = 0.
Proof.
  intros Hpos. unfold BigNumber.modulo, BigNumber.isZero.
  rewrite (proj2 (Z.eqb_neq minimumBid 0)) by lia.
  rewrite Z.eqb_eq. apply Z.rem_mod_eq_0. lia.
Qed.

(** C6: with [minimumBid > 0], [bidIsMultipleOfMinimumBid] resolves if and
    only if [bidQuantity mod minimumBid = 0], and otherwise throws
    [BID_AMOUNT_NOT_MULTIPLE_OF_MINIMUM_BID]. *)
Theorem bidIsMultipleOfMinimumBid_iff web3 rebalancingSetTokenAddress bidQuantity :
  let minimumBid :=
    minimumBid (RebalancingSetTokenContract_at web3 rebalancingSetTokenAddress) in
  0 < minimumBid →
  (bidIsMultipleOfMinimumBid web3 rebalancingSetTokenAddress bidQuantity = Ok tt
   ↔ bidQuantity `mod` minimumBid = 0) ∧
  (bidQuantity `mod` minimumBid ≠ 0 →
   bidIsMultipleOfMinimumBid web3 rebalancingSetTokenAddress bidQuantity
     = Throw (BID_AMOUNT_NOT_MULTIPLE_OF_MINIMUM_BID
                (BigNumber.toString bidQuantity) (BigNumber.toString minimumBid))).
Proof.
  intros minBid Hpos. unfold bidIsMultipleOfMinimumBid. fold minBid.
  pose proof (modulo_isZero bidQuantity minBid Hpos) as Hzero.
  destruct (BigNumber.isZero _); simpl.
  - split; [split; [intros _; by apply Hzero | done] |].
    intros Hne. destruct Hne. by apply Hzero.
  - split; [split; [done |] | done].
    intros Hmod%Hzero. discriminate.
Qed.

(** The scenario of the specification: with [minimumBid = 100], a bid of
    200 resolves and a bid of 150 throws. *)
Lemma bidIsMultipleOfMinimumBid_iff_scenario :
  bidIsMultipleOfMinimumBid (Scenario.chain 2 0 0 0 Scenario.poor)
    Scenario.rebalancingSet 200 = Ok tt ∧
  bidIsMultipleOfMinimumBid (Scenario.chain 2 0 0 0 Scenario.poor)
    Scenario.rebalancingSet 150
    = Throw (BID_AMOUNT_NOT_MULTIPLE_OF_MINIMUM_BID
               (BigNumber.toString 150) (BigNumber.toString 100)).
Proof.
  split.
  - apply (bidIsMultipleOfMinimumBid_iff (Scenario.chain 2 0 0 0 Scenario.poor)
             Scenario.rebalancingSet 200); [simpl; lia | reflexivity].
  - apply (bidIsMultipleOfMinimumBid_iff (Scenario.chain 2 0 0 0 Scenario.poor)
             Scenario.rebalancingSet 150); [simpl; lia | simpl; discriminate].
Defined.

(** ** Promise.all *)

Section PromiseAll.

Context {E A : Type}.
Implicit Types (promises : list (Result E A)) (order : list nat).

Lemma firstRejection_None promises order :
  (∀ i e, i ∈ order → promises !! i ≠ Some (Throw e)) →
  firstRejection promises order = None.
Proof.
  induction order as [|i order IH]; intros Hpass; simpl; [done|].
  destruct (promises !! i) as [[v|e]|] eqn:Hi.
  - apply IH. intros j e' Hj. apply Hpass. by right.
  - destruct (Hpass i e); [by left | done].
  - apply IH. intros j e' Hj. apply Hpass. by right.
Qed.

Lemma firstRejection_app promises before i after e :
  promises !! i = Some (Throw e) →
  (∀ j e', j ∈ before → promises !! j ≠ Some (Throw e')) →
  firstRejection promises (before ++ i :: after) = Some (i, e).
Proof.
  intros Hi. induction before as [|j before IH]; intros Hpass; simpl.
  - by rewrite Hi.
  - destruct (promises !! j) as [[v|e']|] eqn:Hj.
    + apply IH. intros k e'' Hk. apply Hpass. by right.
    + destruct (Hpass j e'); [by left | done].
    + apply IH. intros k e'' Hk. apply Hpass. by right.
Qed.

(** A single rejected promise is the one reported, whenever it settles. *)
Lemma firstRejection_only promises order i e :
  promises !! i = Some (Throw e) →
  (∀ j e', j ≠ i → promises !! j ≠ Some (Throw e')) →
  i ∈ order →
  firstRejection promises order = Some (i, e).
Proof.
  intros Hi Hothers. induction order as [|j order IH]; intros Hin.
  - by apply elem_of_nil in Hin.
  - simpl. destruct (decide (j = i)) as [->|Hne].
    + by rewrite Hi.
    + apply elem_of_cons in Hin as [->|Hin]; [done|].
      destruct (promises !! j) as [[v|e']|] eqn:Hj; [by apply IH | | by apply IH].
      by destruct (Hothers j e').
Qed.

End PromiseAll.

(** ** Balances *)

Lemma balance_promise_lookup web3 ownerAddress inflowArray components i :
  userHasSufficientBalancePromises web3 ownerAddress inflowArray
    (DetailedERC20Contract_at <$> components) !! i
  = (λ component,
       ERC20Assertions.hasSufficientBalanceAsync web3 component ownerAddress
         (inflowArray !! i)) <$> components !! i.
Proof.
  unfold userHasSufficientBalancePromises.
  rewrite list_lookup_imap, list_lookup_fmap.
  by destruct (components !! i).
Qed.

Lemma balance_promise_short web3 ownerAddress inflowArray components i component required :
  components !! i = Some component →
  inflowArray !! i = Some required →
  balanceOf web3 component ownerAddress < required →
  userHasSufficientBalancePromises web3 ownerAddress inflowArray
    (DetailedERC20Contract_at <$> components) !! i
  = Some (Throw (INSUFFICIENT_BALANCE component required
                   (balanceOf web3 component ownerAddress))).
Proof.
  intros Hc Hr Hlt. rewrite balance_promise_lookup, Hc, Hr. simpl.
  unfold BigNumber.lessThan. by rewrite (proj2 (Z.ltb_lt _ _) Hlt).
Qed.

Lemma balance_promise_funded web3 ownerAddress inflowArray components i e :
  length inflowArray = length components →
  (∀ component required,
     components !! i = Some component → inflowArray !! i = Some required →
     required ≤ balanceOf web3 component ownerAddress) →
  userHasSufficientBalancePromises web3 ownerAddress inflowArray
    (DetailedERC20Contract_at <$> components) !! i
  ≠ Some (Throw e).
Proof.
  intros Hlen Hfunded. rewrite balance_promise_lookup.
  destruct (components !! i) as [component|] eqn:Hc; [|done]. simpl.
  destruct (lookup_lt_is_Some_2 inflowArray i) as [required Hr].
  { rewrite Hlen. by eapply lookup_lt_Some. }
  rewrite Hr. simpl. unfold BigNumber.lessThan.
  specialize (Hfunded component required eq_refl Hr).
  by rewrite (proj2 (Z.ltb_ge _ _) Hfunded).
Qed.

Lemma hasSufficientBalances_unfold web3 rebalancingSetTokenAddress ownerAddress
    quantity settled :
  let token := RebalancingSetTokenContract_at web3 rebalancingSetTokenAddress in
  hasSufficientBalances web3 rebalancingSetTokenAddress ownerAddress quantity settled
  = match firstRejection
            (userHasSufficientBalancePromises web3 ownerAddress
               (getBidPrice token quantity).1
               (DetailedERC20Contract_at <$> getCombinedTokenArray token))
            settled with
    | Some (_, e) => Throw e
    | None => Ok tt
    end.
Proof.
  intros token. unfold hasSufficientBalances, Promise_all. fold token.
  destruct (getBidPrice token quantity) as [inflowArray outflowArray]. simpl.
  by destruct (firstRejection _ _) as [[i e]|].
Qed.

(** C2, as amended: when components A and B both fall short of the
    required inflow, [hasSufficientBalances] reports one failure, that of
    the failing check that settles first.  If A's check settles before any
    other failing check ([settled = before ++ a :: after] with no shortfall
    among the checks in [before]), A's [InsufficientBalance] is reported and
    B's is not. *)
Theorem hasSufficientBalances_first_settled web3 rebalancingSetTokenAddress
    ownerAddress quantity (settled before after : list nat) (a b : nat)
    A B requiredA requiredB :
  let token := RebalancingSetTokenContract_at web3 rebalancingSetTokenAddress in
  let inflowArray := (getBidPrice token quantity).1 in
  let components := getCombinedTokenArray token in
  length inflowArray = length components →
  components !! a = Some A →
  components !! b = Some B →
  A ≠ B →
  inflowArray !! a = Some requiredA →
  inflowArray !! b = Some requiredB →
  balanceOf web3 A ownerAddress < requiredA →
  balanceOf web3 B ownerAddress < requiredB →
  settled = (before ++ a :: after)%list →
  (∀ i component required,
     i ∈ before → components !! i = Some component →
     inflowArray !! i = Some required →
     required ≤ balanceOf web3 component ownerAddress) →
  hasSufficientBalances web3 rebalancingSetTokenAddress ownerAddress quantity settled
    = Throw (INSUFFICIENT_BALANCE A requiredA (balanceOf web3 A ownerAddress)) ∧
  hasSufficientBalances web3 rebalancingSetTokenAddress ownerAddress quantity settled
    ≠ Throw (INSUFFICIENT_BALANCE B requiredB (balanceOf web3 B ownerAddress)).
Proof.
  intros token inflowArray components Hlen HA HB Hdistinct HrA HrB HshortA HshortB
    -> Hbefore.
  assert (hasSufficientBalances web3 rebalancingSetTokenAddress ownerAddress quantity
            (before ++ a :: after)
          = Throw (INSUFFICIENT_BALANCE A requiredA (balanceOf web3 A ownerAddress)))
    as Hrun.
  { rewrite hasSufficientBalances_unfold. fold token. fold inflowArray components.
    erewrite firstRejection_app; [done | by apply balance_promise_short |].
    intros j e Hj. apply balance_promise_funded; [done|].
    intros component required. by apply Hbefore. }
  split; [done|]. rewrite Hrun. intros [=]. done.
Qed.

(** In the scenario, where A's check settles first. *)
Lemma hasSufficientBalances_first_settled_scenario :
  hasSufficientBalances (Scenario.chain 2 0 0 0 Scenario.poor)
    Scenario.rebalancingSet Scenario.bidder 100 [0; 1]%nat
    = Throw (INSUFFICIENT_BALANCE Scenario.componentA 50 40) ∧
  hasSufficientBalances (Scenario.chain 2 0 0 0 Scenario.poor)
    Scenario.rebalancingSet Scenario.bidder 100 [0; 1]%nat
    ≠ Throw (INSUFFICIENT_BALANCE Scenario.componentB 50 40).
Proof.
  apply (hasSufficientBalances_first_settled
           (Scenario.chain 2 0 0 0 Scenario.poor)
           Scenario.rebalancingSet Scenario.bidder 100
           [0; 1]%nat [] [1%nat] 0%nat 1%nat
           Scenario.componentA Scenario.componentB 50 50);
    try reflexivity.
  - discriminate.
  - intros i component required Hi. by apply elem_of_nil in Hi.
Defined.

(** C2, as stated, fails: A comes before B in the combined token array,
    the bidder is short of both, B's balance read is answered first, and
    the failure reported is B's. *)
Lemma hasSufficientBalances_reports_B :
  getCombinedTokenArray
    (RebalancingSetTokenContract_at (Scenario.chain 2 0 0 0 Scenario.poor)
       Scenario.rebalancingSet)
    = [Scenario.componentA; Scenario.componentB] ∧
  Scenario.componentA ≠ Scenario.componentB ∧
  balanceOf (Scenario.chain 2 0 0 0 Scenario.poor) Scenario.componentA Scenario.bidder
    < 50 ∧
  balanceOf (Scenario.chain 2 0 0 0 Scenario.poor) Scenario.componentB Scenario.bidder
    < 50 ∧
  hasSufficientBalances (Scenario.chain 2 0 0 0 Scenario.poor)
    Scenario.rebalancingSet Scenario.bidder 100 [1; 0]%nat
    = Throw (INSUFFICIENT_BALANCE Scenario.componentB 50 40) ∧
  hasSufficientBalances (Scenario.chain 2 0 0 0 Scenario.poor)
    Scenario.rebalancingSet Scenario.bidder 100 [1; 0]%nat
    ≠ Throw (INSUFFICIENT_BALANCE Scenario.componentA 50 40).
Proof.
  split_and!; try reflexivity; discriminate.
Qed.

(** C4, as amended: for a component X with a positive required inflow, in
    a basket whose other components are funded, [hasSufficientBalances] throws
    [InsufficientBalance(X, required, balance)] when the bidder's balance
    of X is below the required inflow, and resolves when the balance is at
    least the required inflow, equality included.  The order in which the
    checks settle plays no part here. *)
Theorem hasSufficientBalances_boundary web3 rebalancingSetTokenAddress
    ownerAddress quantity settled index X required :
  let token := RebalancingSetTokenContract_at web3 rebalancingSetTokenAddress in
  let inflowArray := (getBidPrice token quantity).1 in
  let components := getCombinedTokenArray token in
  length inflowArray = length components →
  settled ≡ₚ seq 0 (length components) →
  components !! index = Some X →
  inflowArray !! index = Some required →
  0 < required →
  (∀ j component amount,
     j ≠ index → components !! j = Some component →
     inflowArray !! j = Some amount →
     amount ≤ balanceOf web3 component ownerAddress) →
  (balanceOf web3 X ownerAddress < required →
   hasSufficientBalances web3 rebalancingSetTokenAddress ownerAddress quantity settled
     = Throw (INSUFFICIENT_BALANCE X required (balanceOf web3 X ownerAddress))) ∧
  (required ≤ balanceOf web3 X ownerAddress →
   hasSufficientBalances web3 rebalancingSetTokenAddress ownerAddress quantity settled
     = Ok tt) ∧
  (balanceOf web3 X ownerAddress = required →
   hasSufficientBalances web3 rebalancingSetTokenAddress ownerAddress quantity settled
     = Ok tt).
Proof.
  intros token inflowArray components Hlen Hperm HX Hrequired _ Hothers.
  assert (required ≤ balanceOf web3 X ownerAddress →
          hasSufficientBalances web3 rebalancingSetTokenAddress ownerAddress
            quantity settled = Ok tt) as Hfunded.
  { intros Hge. rewrite hasSufficientBalances_unfold.
    fold token. fold inflowArray components.
    rewrite firstRejection_None; [done|].
    intros j e _. apply balance_promise_funded; [done|].
    intros component amount Hc Hr.
    destruct (decide (j = index)) as [->|Hne]; [|by eapply Hothers].
    fold components in HX. fold inflowArray in Hrequired. by simplify_eq. }
  split_and!.
  - intros Hshort. rewrite hasSufficientBalances_unfold.
    fold token. fold inflowArray components.
    erewrite firstRejection_only; [done | by apply balance_promise_short | |].
    + intros j e Hne. apply balance_promise_funded; [done|].
      intros component amount. by apply Hothers.
    + rewrite Hperm. apply elem_of_seq. apply lookup_lt_Some in HX. lia.
  - exact Hfunded.
  - intros Heq. apply Hfunded. lia.
Qed.

(** The scenario of the specification: the bidder holds 40 of X where 50
    are required, then 50. *)
Lemma hasSufficientBalances_boundary_scenario :
  hasSufficientBalances (Scenario.chain 2 0 0 0 Scenario.shortOfA)
    Scenario.rebalancingSet Scenario.bidder 100 [1; 0]%nat
    = Throw (INSUFFICIENT_BALANCE Scenario.componentA 50 40) ∧
  hasSufficientBalances (Scenario.chain 2 0 0 0 (λ _, 50))
    Scenario.rebalancingSet Scenario.bidder 100 [1; 0]%nat
    = Ok tt.
Proof.
  split.
  - apply (hasSufficientBalances_boundary
             (Scenario.chain 2 0 0 0 Scenario.shortOfA)
             Scenario.rebalancingSet Scenario.bidder 100 [1; 0]%nat
             0%nat Scenario.componentA 50); try reflexivity.
    + apply perm_swap.
    + intros [|[|j]] component amount Hj Hc Hr; simpl in *; simplify_eq.
      vm_compute. discriminate.
  - apply (hasSufficientBalances_boundary
             (Scenario.chain 2 0 0 0 (λ _, 50))
             Scenario.rebalancingSet Scenario.bidder 100 [1; 0]%nat
             0%nat Scenario.componentA 50); try reflexivity.
    + apply perm_swap.
    + intros [|[|j]] component amount Hj Hc Hr; simpl in *; simplify_eq.
      vm_compute. discriminate.
Defined.

(** C4, as stated, fails when another component is short.  The bidder
    holds 40 of X = A where 50 are required, holds 40 of B as well, B's
    check settles first, and the failure carries B, not X.  And with
    exactly the required 50 of A but 40 of B the call fails, in either
    order of settling. *)
Lemma hasSufficientBalances_other_component_short :
  (getBidPrice
     (RebalancingSetTokenContract_at (Scenario.chain 2 0 0 0 Scenario.poor)
        Scenario.rebalancingSet) 100).1 = [50; 50] ∧
  getCombinedTokenArray
    (RebalancingSetTokenContract_at (Scenario.chain 2 0 0 0 Scenario.poor)
       Scenario.rebalancingSet)
    = [Scenario.componentA; Scenario.componentB] ∧
  balanceOf (Scenario.chain 2 0 0 0 Scenario.poor) Scenario.componentA Scenario.bidder
    = 40 ∧
  hasSufficientBalances (Scenario.chain 2 0 0 0 Scenario.poor)
    Scenario.rebalancingSet Scenario.bidder 100 [1; 0]%nat
    = Throw (INSUFFICIENT_BALANCE Scenario.componentB 50 40) ∧
  balanceOf (Scenario.chain 2 0 0 0 Scenario.shortOfB) Scenario.componentA
    Scenario.bidder = 50 ∧
  hasSufficientBalances (Scenario.chain 2 0 0 0 Scenario.shortOfB)
    Scenario.rebalancingSet Scenario.bidder 100 [0; 1]%nat
    = Throw (INSUFFICIENT_BALANCE Scenario.componentB 50 40) ∧
  hasSufficientBalances (Scenario.chain 2 0 0 0 Scenario.shortOfB)
    Scenario.rebalancingSet Scenario.bidder 100 [1; 0]%nat
    = Throw (INSUFFICIENT_BALANCE Scenario.componentB 50 40).
Proof. split_and!; reflexivity. Qed.

(** ** Component amounts for issuance *)

Lemma indexOf_absent (components : list Address) componentAddress :
  componentAddress ∉ components →
  lodash.indexOf components componentAddress = -1.
Proof.
  intros Hout. unfold lodash.indexOf.
  destruct (list_find (λ x : string, x = componentAddress) components)
    as [[i x]|] eqn:Hfind; [|done].
  apply list_find_Some in Hfind as (Hi & -> & _).
  destruct Hout. by eapply list_elem_of_lookup_2.
Qed.

Lemma indexOf_present (components : list Address) componentAddress :
  componentAddress ∈ components →
  ∃ index : nat,
    lodash.indexOf components componentAddress = Z.of_nat index ∧
    components !! index = Some componentAddress ∧
    ∀ j : nat, (j < index)%nat → components !! j ≠ Some componentAddress.
Proof.
  intros Hin. unfold lodash.indexOf.
  destruct (list_find_elem_of (λ x : string, x = componentAddress) components
              componentAddress Hin eq_refl) as [[i x] Hfind].
  rewrite Hfind. apply list_find_Some in Hfind as (Hi & -> & Hleast).
  exists i. split_and!; [done..|].
  intros j Hj Hlookup. by eapply Hleast.
Qed.

Lemma at_index_of_nat {A} (array : list A) (i : nat) :
  at_index array (Z.of_nat i) = array !! i.
Proof.
  unfold at_index. rewrite (proj2 (Z.ltb_ge _ _)) by lia. by rewrite Nat2Z.id.
Qed.

Lemma greaterThanZero_positive quantity errorMessage :
  0 < quantity → CommonAssertions.greaterThanZero quantity errorMessage = Ok tt.
Proof.
  intros Hpos. unfold CommonAssertions.greaterThanZero.
  by rewrite (proj2 (Z.leb_gt _ _) Hpos).
Qed.

Lemma calculateComponentAmountsForIssuanceAsync_valid assert setToken
    calculatePartialAmount setAddress quantity :
  schema_isValidAddress assert "setAddress" setAddress = Ok tt →
  0 < quantity →
  SetTokenAPI.calculateComponentAmountsForIssuanceAsync assert setToken
    calculatePartialAmount setAddress quantity
  = Ok (imap (λ index componentUnit,
                {| Component.address := getComponents setToken setAddress !! index;
                   Component.unit :=
                     calculatePartialAmount componentUnit quantity
                       (naturalUnit setToken setAddress) |})
             (getUnits setToken setAddress)).
Proof.
  intros Hset Hpos.
  unfold SetTokenAPI.calculateComponentAmountsForIssuanceAsync,
    SetTokenAPI.assertcalculateComponentAmountsForIssuance.
  rewrite Hset. simpl. by rewrite greaterThanZero_positive.
Qed.

(** C10, as amended: for addresses that pass [schema.isValidAddress] and
    [quantity > 0],
    [calculateComponentAmountForIssuanceAsync] throws [IS_NOT_COMPONENT]
    when [componentAddress] does not occur among the components of the Set,
    and otherwise returns the unit amount that
    [calculateComponentAmountsForIssuanceAsync] produces at the index of
    [componentAddress], its first occurrence, in the component list (the
    Set has as many units as components). *)
Theorem calculateComponentAmountForIssuanceAsync_component assert setToken
    calculatePartialAmount setAddress componentAddress quantity :
  let components := getComponents setToken setAddress in
  schema_isValidAddress assert "setAddress" setAddress = Ok tt →
  schema_isValidAddress assert "componentAddress" componentAddress = Ok tt →
  0 < quantity →
  (componentAddress ∉ components →
   SetTokenAPI.calculateComponentAmountForIssuanceAsync assert setToken
     calculatePartialAmount setAddress componentAddress quantity
   = Throw (IS_NOT_COMPONENT setAddress componentAddress)) ∧
  (componentAddress ∈ components →
   length (getUnits setToken setAddress) = length components →
   ∃ (index : nat) amountsForIssuance amount,
     components !! index = Some componentAddress ∧
     (∀ j : nat, (j < index)%nat → components !! j ≠ Some componentAddress) ∧
     SetTokenAPI.calculateComponentAmountsForIssuanceAsync assert setToken
       calculatePartialAmount setAddress quantity = Ok amountsForIssuance ∧
     amountsForIssuance !! index = Some amount ∧
     SetTokenAPI.calculateComponentAmountForIssuanceAsync assert setToken
       calculatePartialAmount setAddress componentAddress quantity
     = Ok (Component.unit amount)).
Proof.
  intros components Hset Hcomponent Hpos. split.
  - intros Hout%indexOf_absent.
    unfold SetTokenAPI.calculateComponentAmountForIssuanceAsync,
      SetTokenAPI.assertCalculateUnitTransferred.
    rewrite Hset, Hcomponent. simpl. rewrite greaterThanZero_positive by done.
    simpl. fold components. by rewrite Hout.
  - intros (index & Hindex & Hlookup & Hfirst)%indexOf_present Hlen.
    pose proof (calculateComponentAmountsForIssuanceAsync_valid assert setToken
                  calculatePartialAmount setAddress quantity Hset Hpos) as Hamounts.
    destruct (lookup_lt_is_Some_2 (getUnits setToken setAddress) index)
      as [componentUnit Hunit].
    { rewrite Hlen. by eapply lookup_lt_Some. }
    eexists index, _, _. split_and!; [done | done | exact Hamounts | |].
    + rewrite list_lookup_imap, Hunit. reflexivity.
    + unfold SetTokenAPI.calculateComponentAmountForIssuanceAsync,
        SetTokenAPI.assertCalculateUnitTransferred.
      rewrite Hset, Hcomponent. simpl. rewrite greaterThanZero_positive by done.
      simpl. fold components. rewrite Hindex.
      rewrite (proj2 (Z.ltb_ge _ _)) by lia. simpl.
      rewrite Hamounts. simpl.
      by rewrite at_index_of_nat, list_lookup_imap, Hunit.
Qed.

(** In the scenario: 100 of the Set need 20 of component B, and a stranger
    is not a component. *)
Lemma calculateComponentAmountForIssuanceAsync_scenario :
  SetTokenAPI.calculateComponentAmountForIssuanceAsync Scenario.acceptAll
    Scenario.setToken Scenario.partialAmount Scenario.rebalancingSet
    Scenario.stranger 100
  = Throw (IS_NOT_COMPONENT Scenario.rebalancingSet Scenario.stranger) ∧
  ∃ (index : nat) amountsForIssuance amount,
    [Scenario.componentA; Scenario.componentB] !! index = Some Scenario.componentB ∧
    (∀ j : nat, (j < index)%nat →
       [Scenario.componentA; Scenario.componentB] !! j ≠ Some Scenario.componentB) ∧
    SetTokenAPI.calculateComponentAmountsForIssuanceAsync Scenario.acceptAll
      Scenario.setToken Scenario.partialAmount Scenario.rebalancingSet 100
    = Ok amountsForIssuance ∧
    amountsForIssuance !! index = Some amount ∧
    SetTokenAPI.calculateComponentAmountForIssuanceAsync Scenario.acceptAll
      Scenario.setToken Scenario.partialAmount Scenario.rebalancingSet
      Scenario.componentB 100
    = Ok (Component.unit amount).
Proof.
  split.
  - apply (calculateComponentAmountForIssuanceAsync_component Scenario.acceptAll
             Scenario.setToken Scenario.partialAmount Scenario.rebalancingSet
             Scenario.stranger 100); [reflexivity | reflexivity | lia |].
    simpl. intros Hin. repeat (apply elem_of_cons in Hin as [Heq|Hin]; [discriminate|]).
    by apply elem_of_nil in Hin.
  - apply (calculateComponentAmountForIssuanceAsync_component Scenario.acceptAll
             Scenario.setToken Scenario.partialAmount Scenario.rebalancingSet
             Scenario.componentB 100); [reflexivity | reflexivity | lia | | reflexivity].
    simpl. apply list_elem_of_further, list_elem_of_here.
Defined.

(** C10, as stated, fails for an address that the schema refuses: with a
    positive quantity and a component address that is no component of the
    Set and no address either, what is thrown is the schema's error, not
    [IS_NOT_COMPONENT]. *)
Lemma calculateComponentAmountForIssuanceAsync_refused_address :
  0 < 100 ∧
  ("0x0" ∉ getComponents Scenario.setToken Scenario.rebalancingSet) ∧
  schema_isValidAddress Scenario.lengthChecked "setAddress" Scenario.rebalancingSet
    = Ok tt ∧
  schema_isValidAddress Scenario.lengthChecked "componentAddress" "0x0"
    = Throw (TYPE_ERROR_UNDEFINED "componentAddress") ∧
  SetTokenAPI.calculateComponentAmountForIssuanceAsync Scenario.lengthChecked
    Scenario.setToken Scenario.partialAmount Scenario.rebalancingSet "0x0" 100
    = Throw (TYPE_ERROR_UNDEFINED "componentAddress") ∧
  SetTokenAPI.calculateComponentAmountForIssuanceAsync Scenario.lengthChecked
    Scenario.setToken Scenario.partialAmount Scenario.rebalancingSet "0x0" 100
    ≠ Throw (IS_NOT_COMPONENT Scenario.rebalancingSet "0x0").
Proof.
  split_and!; try reflexivity; try discriminate.
  simpl. intros Hin.
  repeat (apply elem_of_cons in Hin as [Heq|Hin]; [discriminate|]).
  by apply elem_of_nil in Hin.
Qed.

(** * Further properties *)

(** ** The three phase guards together *)

Lemma isNotInRebalanceState_run web3 rebalancingSetTokenAddress :
  isNotInRebalanceState web3 rebalancingSetTokenAddress
  = if decide (rebalanceState
                 (RebalancingSetTokenContract_at web3 rebalancingSetTokenAddress)
               = RebalancingState.REBALANCE)
    then Throw (REBALANCE_IN_PROGRESS rebalancingSetTokenAddress)
    else Ok tt.
Proof.
  unfold isNotInRebalanceState, BigNumber.eq.
  case_decide as Hstate.
  - by rewrite (proj2 (Z.eqb_eq _ _) Hstate).
  - by rewrite (proj2 (Z.eqb_neq _ _) Hstate).
Qed.

Lemma isInRebalanceState_run web3 rebalancingSetTokenAddress :
  isInRebalanceState web3 rebalancingSetTokenAddress
  = if decide (rebalanceState
                 (RebalancingSetTokenContract_at web3 rebalancingSetTokenAddress)
               = RebalancingState.REBALANCE)
    then Ok tt
    else Throw (INCORRECT_STATE rebalancingSetTokenAddress "Rebalance").
Proof.
  unfold isInRebalanceState, BigNumber.eq.
  case_decide as Hstate.
  - by rewrite (proj2 (Z.eqb_eq _ _) Hstate).
  - by rewrite (proj2 (Z.eqb_neq _ _) Hstate).
Qed.

(** X1: [isNotInRebalanceState] and [isInRebalanceState] are complementary:
    on every basket exactly one of them resolves, and the other throws its
    own message.  Outside phase Rebalance the first resolves and the second
    throws [INCORRECT_STATE]; in phase Rebalance the second resolves and
    the first throws [REBALANCE_IN_PROGRESS]. *)
Theorem rebalance_guards_complementary web3 rebalancingSetTokenAddress :
  let currentState :=
    rebalanceState (RebalancingSetTokenContract_at web3 rebalancingSetTokenAddress) in
  (currentState ≠ RebalancingState.REBALANCE ∧
   isNotInRebalanceState web3 rebalancingSetTokenAddress = Ok tt ∧
   isInRebalanceState web3 rebalancingSetTokenAddress
     = Throw (INCORRECT_STATE rebalancingSetTokenAddress "Rebalance")) ∨
  (currentState = RebalancingState.REBALANCE ∧
   isInRebalanceState web3 rebalancingSetTokenAddress = Ok tt ∧
   isNotInRebalanceState web3 rebalancingSetTokenAddress
     = Throw (REBALANCE_IN_PROGRESS rebalancingSetTokenAddress)).
Proof.
  intros currentState.
  rewrite isNotInRebalanceState_run, isInRebalanceState_run. fold currentState.
  case_decide; [right | left]; done.
Qed.

(** X2: a basket that passes [isInProposalState] passes
    [isNotInRebalanceState] and fails [isInRebalanceState]: a new proposal
    is not blocked in phase Proposal, a bid is. *)
Theorem proposal_excludes_rebalance web3 rebalancingSetTokenAddress :
  isInProposalState web3 rebalancingSetTokenAddress = Ok tt →
  isNotInRebalanceState web3 rebalancingSetTokenAddress = Ok tt ∧
  isInRebalanceState web3 rebalancingSetTokenAddress
    = Throw (INCORRECT_STATE rebalancingSetTokenAddress "Rebalance").
Proof.
  intros Hproposal%isInProposalState_ok.
  rewrite isNotInRebalanceState_run, isInRebalanceState_run.
  rewrite Hproposal. by case_decide.
Qed.

Lemma proposal_excludes_rebalance_scenario :
  isNotInRebalanceState (Scenario.chain 1 0 0 0 Scenario.poor) Scenario.rebalancingSet
    = Ok tt ∧
  isInRebalanceState (Scenario.chain 1 0 0 0 Scenario.poor) Scenario.rebalancingSet
    = Throw (INCORRECT_STATE Scenario.rebalancingSet "Rebalance").
Proof.
  apply (proposal_excludes_rebalance (Scenario.chain 1 0 0 0 Scenario.poor)
           Scenario.rebalancingSet).
  reflexivity.
Defined.

(** ** The two time guards *)

Lemma sufficientTimeBetweenRebalance_run web3 rebalancingSetTokenAddress :
  let token := RebalancingSetTokenContract_at web3 rebalancingSetTokenAddress in
  let nextAvailable :=
    (lastRebalanceTimestamp token + rebalanceInterval token) * 1000 in
  sufficientTimeBetweenRebalance web3 rebalancingSetTokenAddress
  = if decide (Date_now web3 < nextAvailable)
    then Throw (INSUFFICIENT_TIME_PASSED
                  (moment_format (BigNumber.toNumber nextAvailable) dateFormat))
    else Ok tt.
Proof.
  intros token nextAvailable.
  unfold sufficientTimeBetweenRebalance, BigNumber.greaterThan, BigNumber.mul,
    BigNumber.add.
  fold token. fold nextAvailable. case_decide as Hnow.
  - by rewrite (proj2 (Z.ltb_lt _ _) Hnow).
  - by rewrite (proj2 (Z.ltb_ge _ _)) by lia.
Qed.

Lemma sufficientTimeInProposalState_run web3 rebalancingSetTokenAddress :
  let token := RebalancingSetTokenContract_at web3 rebalancingSetTokenAddress in
  let nextAvailable := (proposalStartTime token + proposalPeriod token) * 1000 in
  sufficientTimeInProposalState web3 rebalancingSetTokenAddress
  = if decide (Date_now web3 < nextAvailable)
    then Throw (INSUFFICIENT_TIME_PASSED
                  (moment_format (BigNumber.toNumber nextAvailable) dateFormat))
    else Ok tt.
Proof.
  intros token nextAvailable.
  unfold sufficientTimeInProposalState, BigNumber.greaterThan, BigNumber.mul,
    BigNumber.add.
  fold token. fold nextAvailable. case_decide as Hnow.
  - by rewrite (proj2 (Z.ltb_lt _ _) Hnow).
  - by rewrite (proj2 (Z.ltb_ge _ _)) by lia.
Qed.

(** X3: [sufficientTimeInProposalState] resolves exactly when
    [(proposalStartTime + proposalPeriod) * 1000 <= now], the instant itself
    included, and before that throws [INSUFFICIENT_TIME_PASSED] with the
    date formatted from that product. *)
Theorem sufficientTimeInProposalState_boundary web3 rebalancingSetTokenAddress :
  let token := RebalancingSetTokenContract_at web3 rebalancingSetTokenAddress in
  let nextAvailable := (proposalStartTime token + proposalPeriod token) * 1000 in
  (sufficientTimeInProposalState web3 rebalancingSetTokenAddress = Ok tt
   ↔ nextAvailable ≤ Date_now web3) ∧
  (sufficientTimeInProposalState web3 rebalancingSetTokenAddress
     = Throw (INSUFFICIENT_TIME_PASSED
                (moment_format (BigNumber.toNumber nextAvailable) dateFormat))
   ↔ Date_now web3 < nextAvailable).
Proof.
  intros token nextAvailable.
  rewrite sufficientTimeInProposalState_run. fold token. fold nextAvailable.
  case_decide; split; split; first [done | lia].
Qed.

(** X4: time only helps.  If a time guard resolves at some instant, it
    resolves at every later instant at which the basket reads the same. *)
Theorem time_guards_monotone web3 later rebalancingSetTokenAddress :
  RebalancingSetTokenContract_at later rebalancingSetTokenAddress
    = RebalancingSetTokenContract_at web3 rebalancingSetTokenAddress →
  Date_now web3 ≤ Date_now later →
  (sufficientTimeBetweenRebalance web3 rebalancingSetTokenAddress = Ok tt →
   sufficientTimeBetweenRebalance later rebalancingSetTokenAddress = Ok tt) ∧
  (sufficientTimeInProposalState web3 rebalancingSetTokenAddress = Ok tt →
   sufficientTimeInProposalState later rebalancingSetTokenAddress = Ok tt).
Proof.
  intros Hsame Hlater.
  rewrite !sufficientTimeBetweenRebalance_run, !sufficientTimeInProposalState_run.
  rewrite Hsame.
  split; repeat case_decide; first [done | lia].
Qed.

Lemma time_guards_monotone_scenario :
  (sufficientTimeBetweenRebalance
     (Scenario.chain 0 Scenario.lastRebalance 0 Scenario.now Scenario.poor)
     Scenario.rebalancingSet = Ok tt →
   sufficientTimeBetweenRebalance
     (Scenario.chain 0 Scenario.lastRebalance 0 (Scenario.now + 1) Scenario.poor)
     Scenario.rebalancingSet = Ok tt) ∧
  (sufficientTimeInProposalState
     (Scenario.chain 0 Scenario.lastRebalance 0 Scenario.now Scenario.poor)
     Scenario.rebalancingSet = Ok tt →
   sufficientTimeInProposalState
     (Scenario.chain 0 Scenario.lastRebalance 0 (Scenario.now + 1) Scenario.poor)
     Scenario.rebalancingSet = Ok tt).
Proof.
  apply (time_guards_monotone
           (Scenario.chain 0 Scenario.lastRebalance 0 Scenario.now Scenario.poor)
           (Scenario.chain 0 Scenario.lastRebalance 0 (Scenario.now + 1) Scenario.poor)
           Scenario.rebalancingSet).
  - reflexivity.
  - simpl. unfold Scenario.now. lia.
Defined.

(** ** The bid checks together *)

Lemma enoughSetsRebalanced_run web3 rebalancingSetTokenAddress :
  let token := RebalancingSetTokenContract_at web3 rebalancingSetTokenAddress in
  enoughSetsRebalanced web3 rebalancingSetTokenAddress
  = if decide (minimumBid token ≤ remainingCurrentSets token)
    then Throw (NOT_ENOUGH_SETS_REBALANCED rebalancingSetTokenAddress
                  (BigNumber.toString (minimumBid token))
                  (BigNumber.toString (remainingCurrentSets token)))
    else Ok tt.
Proof.
  intros token. unfold enoughSetsRebalanced, BigNumber.greaterThanOrEqualTo.
  fold token. case_decide as Hle.
  - by rewrite (proj2 (Z.leb_le _ _) Hle).
  - by rewrite (proj2 (Z.leb_gt _ _)) by lia.
Qed.

Lemma bidAmountLessThanRemainingSets_run web3 rebalancingSetTokenAddress bidQuantity :
  let token := RebalancingSetTokenContract_at web3 rebalancingSetTokenAddress in
  bidAmountLessThanRemainingSets web3 rebalancingSetTokenAddress bidQuantity
  = if decide (remainingCurrentSets token < bidQuantity)
    then Throw (BID_AMOUNT_EXCEEDS_REMAINING_CURRENT_SETS
                  (BigNumber.toString (remainingCurrentSets token))
                  (BigNumber.toString bidQuantity))
    else Ok tt.
Proof.
  intros token. unfold bidAmountLessThanRemainingSets, BigNumber.greaterThan.
  fold token. case_decide as Hlt.
  - by rewrite (proj2 (Z.ltb_lt _ _) Hlt).
  - by rewrite (proj2 (Z.ltb_ge _ _)) by lia.
Qed.

Lemma bidIsMultipleOfMinimumBid_resolves web3 rebalancingSetTokenAddress bidQuantity :
  let minimumBid :=
    minimumBid (RebalancingSetTokenContract_at web3 rebalancingSetTokenAddress) in
  bidIsMultipleOfMinimumBid web3 rebalancingSetTokenAddress bidQuantity = Ok tt
  ↔ minimumBid ≠ 0 ∧ (minimumBid | bidQuantity).
Proof.
  intros minBid. unfold bidIsMultipleOfMinimumBid, BigNumber.modulo, BigNumber.isZero.
  fold minBid. destruct (Z.eqb_spec minBid 0) as [Hzero|Hnonzero]; simpl.
  - split; [done | by intros [? _]].
  - rewrite <- (Z.rem_divide bidQuantity minBid Hnonzero).
    destruct (Z.eqb_spec (Z.rem bidQuantity minBid) 0); simpl;
      split; first [done | by intros [_ ?] | by intros _].
Qed.

(** X5: [bidIsMultipleOfMinimumBid] resolves exactly when [minimumBid] is
    not zero and divides [bidQuantity].  With [minimumBid = 0] the remainder
    is [NaN] and every quantity, zero included, is refused. *)
Theorem bidIsMultipleOfMinimumBid_divides web3 rebalancingSetTokenAddress bidQuantity :
  let minimumBid :=
    minimumBid (RebalancingSetTokenContract_at web3 rebalancingSetTokenAddress) in
  (bidIsMultipleOfMinimumBid web3 rebalancingSetTokenAddress bidQuantity = Ok tt
   ↔ minimumBid ≠ 0 ∧ (minimumBid | bidQuantity)) ∧
  (minimumBid = 0 →
   bidIsMultipleOfMinimumBid web3 rebalancingSetTokenAddress bidQuantity
     = Throw (BID_AMOUNT_NOT_MULTIPLE_OF_MINIMUM_BID
                (BigNumber.toString bidQuantity) (BigNumber.toString 0))).
Proof.
  intros minBid. split; [apply bidIsMultipleOfMinimumBid_resolves|].
  intros Hzero. unfold bidIsMultipleOfMinimumBid. fold minBid. by rewrite Hzero.
Qed.

(** X6: with [minimumBid > 0], [enoughSetsRebalanced] resolves exactly when
    no positive bid quantity passes both [bidIsMultipleOfMinimumBid] and
    [bidAmountLessThanRemainingSets]: it is the check that the auction can
    take no further bid. *)
Theorem enoughSetsRebalanced_no_bid_left web3 rebalancingSetTokenAddress :
  0 < minimumBid (RebalancingSetTokenContract_at web3 rebalancingSetTokenAddress) →
  enoughSetsRebalanced web3 rebalancingSetTokenAddress = Ok tt
  ↔ ∀ bidQuantity,
      0 < bidQuantity →
      ¬ (bidIsMultipleOfMinimumBid web3 rebalancingSetTokenAddress bidQuantity = Ok tt ∧
         bidAmountLessThanRemainingSets web3 rebalancingSetTokenAddress bidQuantity
           = Ok tt).
Proof.
  intros Hpos. rewrite enoughSetsRebalanced_run.
  set (token := RebalancingSetTokenContract_at web3 rebalancingSetTokenAddress) in *.
  case_decide as Hleft; split.
  - done.
  - intros Hnone. destruct (Hnone (minimumBid token) Hpos). split.
    + apply bidIsMultipleOfMinimumBid_resolves. fold token. split; [lia | done].
    + rewrite bidAmountLessThanRemainingSets_run. fold token.
      case_decide; [lia | done].
  - intros _ bidQuantity Hbid [Hmultiple Hwithin].
    apply bidIsMultipleOfMinimumBid_resolves in Hmultiple as [_ [k Hk]].
    fold token in Hk.
    rewrite bidAmountLessThanRemainingSets_run in Hwithin. fold token in Hwithin.
    case_decide as Hover; [done|]. clear Hwithin.
    destruct (Z.le_gt_cases k 0); nia.
  - done.
Qed.

Lemma enoughSetsRebalanced_no_bid_left_scenario :
  enoughSetsRebalanced Scenario.exhaustedChain Scenario.rebalancingSet = Ok tt
  ↔ ∀ bidQuantity,
      0 < bidQuantity →
      ¬ (bidIsMultipleOfMinimumBid Scenario.exhaustedChain Scenario.rebalancingSet
           bidQuantity = Ok tt ∧
         bidAmountLessThanRemainingSets Scenario.exhaustedChain
           Scenario.rebalancingSet bidQuantity = Ok tt).
Proof.
  apply (enoughSetsRebalanced_no_bid_left Scenario.exhaustedChain
           Scenario.rebalancingSet).
  simpl. lia.
Defined.

(** ** Balance checks, whatever the order in which they settle *)

Section FirstRejection.

Context {E A : Type}.
Implicit Types (promises : list (Result E A)) (order : list nat).

Lemma firstRejection_Some_inv promises order i e :
  firstRejection promises order = Some (i, e) →
  i ∈ order ∧ promises !! i = Some (Throw e).
Proof.
  induction order as [|j order IH]; simpl; [done|].
  destruct (promises !! j) as [[v|e']|] eqn:Hj.
  - intros [Hin Hi]%IH. split; [by right | done].
  - intros [= <- <-]. split; [by left | done].
  - intros [Hin Hi]%IH. split; [by right | done].
Qed.

Lemma firstRejection_None_inv promises order i e :
  firstRejection promises order = None →
  i ∈ order → promises !! i ≠ Some (Throw e).
Proof.
  induction order as [|j order IH]; simpl; intros Hnone Hin.
  - by apply elem_of_nil in Hin.
  - destruct (promises !! j) as [[v|e']|] eqn:Hj; [| done |].
    + apply elem_of_cons in Hin as [->|Hin]; [congruence | by apply IH].
    + apply elem_of_cons in Hin as [->|Hin]; [congruence | by apply IH].
Qed.

End FirstRejection.

Lemma settled_index (settled : list nat) {A} (l : list A) i x :
  settled ≡ₚ seq 0 (length l) → l !! i = Some x → i ∈ settled.
Proof.
  intros Hperm Hi. rewrite Hperm. apply elem_of_seq.
  apply lookup_lt_Some in Hi. lia.
Qed.

(** X7: whether [hasSufficientBalances] resolves does not depend on the
    order in which the checks settle: it resolves exactly when the owner
    holds at least the required inflow of every component. *)
Theorem hasSufficientBalances_resolves_iff web3 rebalancingSetTokenAddress
    ownerAddress quantity settled :
  let token := RebalancingSetTokenContract_at web3 rebalancingSetTokenAddress in
  let inflowArray := (getBidPrice token quantity).1 in
  let components := getCombinedTokenArray token in
  length inflowArray = length components →
  settled ≡ₚ seq 0 (length components) →
  hasSufficientBalances web3 rebalancingSetTokenAddress ownerAddress quantity settled
    = Ok tt
  ↔ ∀ i component required,
      components !! i = Some component → inflowArray !! i = Some required →
      required ≤ balanceOf web3 component ownerAddress.
Proof.
  intros token inflowArray components Hlen Hperm.
  rewrite hasSufficientBalances_unfold. fold token. fold inflowArray components.
  split.
  - intros Hrun i component required Hc Hr.
    destruct (firstRejection _ settled) as [[j e]|] eqn:Hfirst; [done|].
    destruct (Z.le_gt_cases required (balanceOf web3 component ownerAddress))
      as [Hfunded|Hshort]; [done|].
    destruct (firstRejection_None_inv _ _ i
                (INSUFFICIENT_BALANCE component required
                   (balanceOf web3 component ownerAddress)) Hfirst).
    + by eapply settled_index.
    + apply balance_promise_short; [done | done | lia].
  - intros Hfunded. rewrite firstRejection_None; [done|].
    intros i e _. apply balance_promise_funded; [done|].
    intros component required. apply Hfunded.
Qed.

Lemma hasSufficientBalances_resolves_iff_scenario :
  hasSufficientBalances (Scenario.chain 2 0 0 0 Scenario.shortOfA)
    Scenario.rebalancingSet Scenario.bidder 100 [1; 0]%nat = Ok tt
  ↔ ∀ i component required,
      [Scenario.componentA; Scenario.componentB] !! i = Some component →
      [50; 50] !! i = Some required →
      required ≤ Scenario.shortOfA component.
Proof.
  apply (hasSufficientBalances_resolves_iff
           (Scenario.chain 2 0 0 0 Scenario.shortOfA)
           Scenario.rebalancingSet Scenario.bidder 100 [1; 0]%nat).
  - reflexivity.
  - apply perm_swap.
Defined.

(** X8: [hasSufficientBalances] never reports a component that is funded.
    When every check settles, it resolves, or it throws
    [INSUFFICIENT_BALANCE] for a component of the combined token array, with
    the inflow required at its index and the owner's balance, and that
    balance is below the inflow. *)
Theorem hasSufficientBalances_failure_is_a_shortfall web3 rebalancingSetTokenAddress
    ownerAddress quantity settled :
  let token := RebalancingSetTokenContract_at web3 rebalancingSetTokenAddress in
  let inflowArray := (getBidPrice token quantity).1 in
  let components := getCombinedTokenArray token in
  length inflowArray = length components →
  settled ≡ₚ seq 0 (length components) →
  hasSufficientBalances web3 rebalancingSetTokenAddress ownerAddress quantity settled
    = Ok tt ∨
  ∃ i component required,
    i ∈ settled ∧
    components !! i = Some component ∧
    inflowArray !! i = Some required ∧
    balanceOf web3 component ownerAddress < required ∧
    hasSufficientBalances web3 rebalancingSetTokenAddress ownerAddress quantity settled
      = Throw (INSUFFICIENT_BALANCE component required
                 (balanceOf web3 component ownerAddress)).
Proof.
  intros token inflowArray components Hlen _.
  rewrite hasSufficientBalances_unfold. fold token. fold inflowArray components.
  destruct (firstRejection _ settled) as [[i e]|] eqn:Hfirst; [right | by left].
  apply firstRejection_Some_inv in Hfirst as [Hin Hi].
  rewrite balance_promise_lookup in Hi.
  destruct (components !! i) as [component|] eqn:Hc; [|done].
  destruct (lookup_lt_is_Some_2 inflowArray i) as [required Hr].
  { rewrite Hlen. by eapply lookup_lt_Some. }
  rewrite Hr in Hi. simpl in Hi. unfold BigNumber.lessThan in Hi.
  destruct (Z.ltb_spec (balanceOf web3 component ownerAddress) required)
    as [Hshort|Hfunded]; [|done].
  exists i, component, required. by simplify_eq.
Qed.

Lemma hasSufficientBalances_failure_is_a_shortfall_scenario :
  hasSufficientBalances (Scenario.chain 2 0 0 0 Scenario.poor)
    Scenario.rebalancingSet Scenario.bidder 100 [1; 0]%nat
    = Ok tt ∨
  ∃ i component required,
    i ∈ [1; 0]%nat ∧
    [Scenario.componentA; Scenario.componentB] !! i = Some component ∧
    [50; 50] !! i = Some required ∧
    Scenario.poor component < required ∧
    hasSufficientBalances (Scenario.chain 2 0 0 0 Scenario.poor)
      Scenario.rebalancingSet Scenario.bidder 100 [1; 0]%nat
      = Throw (INSUFFICIENT_BALANCE component required (Scenario.poor component)).
Proof.
  apply (hasSufficientBalances_failure_is_a_shortfall
           (Scenario.chain 2 0 0 0 Scenario.poor)
           Scenario.rebalancingSet Scenario.bidder 100 [1; 0]%nat).
  - reflexivity.
  - apply perm_swap.
Defined.

(** X9: [hasSufficientBalances] looks at the combined token array, the
    inflow array and the owner's balances of those tokens, and at nothing
    else: two baskets that agree on these give the same result, whatever
    their outflow arrays, phases or managers. *)
Theorem hasSufficientBalances_reads_inflow_only web3 web3' rebalancingSetTokenAddress
    rebalancingSetTokenAddress' ownerAddress quantity settled :
  let token := RebalancingSetTokenContract_at web3 rebalancingSetTokenAddress in
  let token' := RebalancingSetTokenContract_at web3' rebalancingSetTokenAddress' in
  getCombinedTokenArray token = getCombinedTokenArray token' →
  (getBidPrice token quantity).1 = (getBidPrice token' quantity).1 →
  (∀ component,
     component ∈ getCombinedTokenArray token →
     balanceOf web3 component ownerAddress = balanceOf web3' component ownerAddress) →
  hasSufficientBalances web3 rebalancingSetTokenAddress ownerAddress quantity settled
  = hasSufficientBalances web3' rebalancingSetTokenAddress' ownerAddress quantity
      settled.
Proof.
  intros token token' Hcomponents Hinflow Hbalances.
  rewrite !hasSufficientBalances_unfold. fold token token'.
  rewrite <- Hcomponents, <- Hinflow.
  replace (userHasSufficientBalancePromises web3' ownerAddress
             (getBidPrice token quantity).1
             (DetailedERC20Contract_at <$> getCombinedTokenArray token))
    with (userHasSufficientBalancePromises web3 ownerAddress
            (getBidPrice token quantity).1
            (DetailedERC20Contract_at <$> getCombinedTokenArray token)); [done|].
  apply list_eq. intros i. rewrite !balance_promise_lookup.
  destruct (getCombinedTokenArray token !! i) as [component|] eqn:Hc; [|done].
  simpl. unfold ERC20Assertions.hasSufficientBalanceAsync.
  rewrite (Hbalances component); [done|]. by eapply list_elem_of_lookup_2.
Qed.

Lemma hasSufficientBalances_reads_inflow_only_scenario :
  hasSufficientBalances (Scenario.chain 1 0 0 0 Scenario.poor)
    Scenario.rebalancingSet Scenario.bidder 100 [1; 0]%nat
  = hasSufficientBalances Scenario.exhaustedChain
      Scenario.stranger Scenario.bidder 100 [1; 0]%nat.
Proof.
  apply (hasSufficientBalances_reads_inflow_only
           (Scenario.chain 1 0 0 0 Scenario.poor) Scenario.exhaustedChain
           Scenario.rebalancingSet Scenario.stranger Scenario.bidder 100
           [1; 0]%nat); reflexivity.
Defined.

(** X10: a component that needs no inflow is never the reason to fail.
    When no balance is negative, [hasSufficientBalances] resolves exactly
    when every component with a positive required inflow is funded. *)
Theorem hasSufficientBalances_positive_inflows web3 rebalancingSetTokenAddress
    ownerAddress quantity settled :
  let token := RebalancingSetTokenContract_at web3 rebalancingSetTokenAddress in
  let inflowArray := (getBidPrice token quantity).1 in
  let components := getCombinedTokenArray token in
  length inflowArray = length components →
  settled ≡ₚ seq 0 (length components) →
  (∀ component, 0 ≤ balanceOf web3 component ownerAddress) →
  hasSufficientBalances web3 rebalancingSetTokenAddress ownerAddress quantity settled
    = Ok tt
  ↔ ∀ i component required,
      components !! i = Some component → inflowArray !! i = Some required →
      0 < required →
      required ≤ balanceOf web3 component ownerAddress.
Proof.
  intros token inflowArray components Hlen Hperm Hnonneg.
  rewrite hasSufficientBalances_unfold. fold token. fold inflowArray components.
  split.
  - intros Hrun i component required Hc Hr _.
    destruct (firstRejection _ settled) as [[j e]|] eqn:Hfirst; [done|].
    destruct (Z.le_gt_cases required (balanceOf web3 component ownerAddress))
      as [Hfunded|Hshort]; [done|].
    destruct (firstRejection_None_inv _ _ i
                (INSUFFICIENT_BALANCE component required
                   (balanceOf web3 component ownerAddress)) Hfirst).
    + by eapply settled_index.
    + apply balance_promise_short; [done | done | lia].
  - intros Hfunded. rewrite firstRejection_None; [done|].
    intros i e _. apply balance_promise_funded; [done|].
    intros component required Hc Hr.
    destruct (Z.le_gt_cases required 0) as [Hnone|Hsome].
    + specialize (Hnonneg component). lia.
    + by eapply Hfunded.
Qed.

Lemma hasSufficientBalances_positive_inflows_scenario :
  hasSufficientBalances (Scenario.chain 2 0 0 0 Scenario.shortOfA)
    Scenario.rebalancingSet Scenario.bidder 100 [0; 1]%nat = Ok tt
  ↔ ∀ i component required,
      [Scenario.componentA; Scenario.componentB] !! i = Some component →
      [50; 50] !! i = Some required →
      0 < required →
      required ≤ Scenario.shortOfA component.
Proof.
  apply (hasSufficientBalances_positive_inflows
           (Scenario.chain 2 0 0 0 Scenario.shortOfA)
           Scenario.rebalancingSet Scenario.bidder 100 [0; 1]%nat).
  - reflexivity.
  - reflexivity.
  - intros component. simpl. unfold Scenario.shortOfA.
    destruct (String.eqb component Scenario.componentA); lia.
Defined.

(** ** Allowance checks *)

Lemma allowance_promise_lookup check ownerAddress spenderAddress inflowArray
    components i :
  userHasSufficientAllowancePromises check ownerAddress spenderAddress inflowArray
    (DetailedERC20Contract_at <$> components) !! i
  = (λ component,
       check component ownerAddress spenderAddress (inflowArray !! i))
      <$> components !! i.
Proof.
  unfold userHasSufficientAllowancePromises.
  rewrite list_lookup_imap, list_lookup_fmap.
  by destruct (components !! i).
Qed.

Lemma hasSufficientAllowances_unfold check web3 rebalancingSetTokenAddress
    ownerAddress spenderAddress quantity settled :
  let token := RebalancingSetTokenContract_at web3 rebalancingSetTokenAddress in
  hasSufficientAllowances check web3 rebalancingSetTokenAddress ownerAddress
    spenderAddress quantity settled
  = match firstRejection
            (userHasSufficientAllowancePromises check ownerAddress spenderAddress
               (getBidPrice token quantity).1
               (DetailedERC20Contract_at <$> getCombinedTokenArray token))
            settled with
    | Some (_, e) => Throw e
    | None => Ok tt
    end.
Proof.
  intros token. unfold hasSufficientAllowances, Promise_all. fold token.
  destruct (getBidPrice token quantity) as [inflowArray outflowArray]. simpl.
  by destruct (firstRejection _ _) as [[i e]|].
Qed.

(** X11: [hasSufficientAllowances] resolves exactly when the allowance
    check of every component of the combined token array resolves, each
    called with the component, the owner, the spender and the inflow at the
    component's index; the order in which the checks settle plays no part
    in that. *)
Theorem hasSufficientAllowances_resolves_iff check web3 rebalancingSetTokenAddress
    ownerAddress spenderAddress quantity settled :
  let token := RebalancingSetTokenContract_at web3 rebalancingSetTokenAddress in
  let inflowArray := (getBidPrice token quantity).1 in
  let components := getCombinedTokenArray token in
  settled ≡ₚ seq 0 (length components) →
  hasSufficientAllowances check web3 rebalancingSetTokenAddress ownerAddress
    spenderAddress quantity settled = Ok tt
  ↔ ∀ i component,
      components !! i = Some component →
      check component ownerAddress spenderAddress (inflowArray !! i) = Ok tt.
Proof.
  intros token inflowArray components Hperm.
  rewrite hasSufficientAllowances_unfold. fold token. fold inflowArray components.
  split.
  - intros Hrun i component Hc.
    destruct (firstRejection _ settled) as [[j e]|] eqn:Hfirst; [done|].
    destruct (check component ownerAddress spenderAddress (inflowArray !! i))
      as [[]|e] eqn:Hcheck; [done|].
    destruct (firstRejection_None_inv _ _ i e Hfirst).
    + by eapply settled_index.
    + by rewrite allowance_promise_lookup, Hc; simpl; rewrite Hcheck.
  - intros Hall. rewrite firstRejection_None; [done|].
    intros i e _. rewrite allowance_promise_lookup.
    destruct (components !! i) as [component|] eqn:Hc; [|done].
    simpl. by rewrite (Hall i component Hc).
Qed.

Lemma hasSufficientAllowances_resolves_iff_scenario :
  hasSufficientAllowances Scenario.approved (Scenario.chain 2 0 0 0 Scenario.poor)
    Scenario.rebalancingSet Scenario.bidder Scenario.stranger 100 [1; 0]%nat = Ok tt
  ↔ ∀ i component,
      [Scenario.componentA; Scenario.componentB] !! i = Some component →
      Scenario.approved component Scenario.bidder Scenario.stranger ([50; 50] !! i)
        = Ok tt.
Proof.
  apply (hasSufficientAllowances_resolves_iff Scenario.approved
           (Scenario.chain 2 0 0 0 Scenario.poor)
           Scenario.rebalancingSet Scenario.bidder Scenario.stranger 100
           [1; 0]%nat).
  apply perm_swap.
Defined.



(** ** Queries on a Set *)

Lemma schema_cases (check : Promise unit) :
  check = Ok tt ∨ ∃ e, check = Throw e.
Proof. destruct check as [[]|e]; [by left | right; by exists e]. Qed.

Lemma greaterThanZero_nonpositive quantity errorMessage :
  quantity ≤ 0 →
  CommonAssertions.greaterThanZero quantity errorMessage = Throw errorMessage.
Proof.
  intros Hle. unfold CommonAssertions.greaterThanZero.
  by rewrite (proj2 (Z.leb_le _ _) Hle).
Qed.

(** X13: for a valid address and a positive quantity,
    [calculateComponentAmountsForIssuanceAsync] returns one entry for each
    unit of the Set, in order: entry [i] carries [components[i]] and
    [calculatePartialAmount(units[i], quantity, naturalUnit)]. *)
Theorem calculateComponentAmountsForIssuanceAsync_entries assert setToken
    calculatePartialAmount setAddress quantity :
  schema_isValidAddress assert "setAddress" setAddress = Ok tt →
  0 < quantity →
  ∃ amounts,
    SetTokenAPI.calculateComponentAmountsForIssuanceAsync assert setToken
      calculatePartialAmount setAddress quantity = Ok amounts ∧
    length amounts = length (getUnits setToken setAddress) ∧
    ∀ (i : nat) componentUnit,
      getUnits setToken setAddress !! i = Some componentUnit →
      amounts !! i
      = Some {| Component.address := getComponents setToken setAddress !! i;
                Component.unit :=
                  calculatePartialAmount componentUnit quantity
                    (naturalUnit setToken setAddress) |}.
Proof.
  intros Hset Hpos. eexists. split_and!.
  - by apply calculateComponentAmountsForIssuanceAsync_valid.
  - by rewrite length_imap.
  - intros i componentUnit Hunit. by rewrite list_lookup_imap, Hunit.
Qed.

Lemma calculateComponentAmountsForIssuanceAsync_entries_scenario :
  ∃ amounts,
    SetTokenAPI.calculateComponentAmountsForIssuanceAsync Scenario.acceptAll
      Scenario.setToken Scenario.partialAmount Scenario.rebalancingSet 100
      = Ok amounts ∧
    length amounts = 2%nat ∧
    ∀ (i : nat) componentUnit,
      [1; 2] !! i = Some componentUnit →
      amounts !! i
      = Some {| Component.address :=
                  [Scenario.componentA; Scenario.componentB] !! i;
                Component.unit := Scenario.partialAmount componentUnit 100 10 |}.
Proof.
  apply (calculateComponentAmountsForIssuanceAsync_entries Scenario.acceptAll
           Scenario.setToken Scenario.partialAmount Scenario.rebalancingSet 100);
    [reflexivity | lia].
Defined.

(** X14: [calculateComponentAmountForIssuanceAsync] checks in this order:
    the Set address, the component address, the quantity, and only then
    whether the component belongs to the Set.  What the schema throws for
    an address is passed on; with valid addresses a quantity that is not
    positive throws [QUANTITY_NEEDS_TO_BE_POSITIVE], for a component of the
    Set or not. *)
Theorem calculateComponentAmountForIssuanceAsync_precedence assert setToken
    calculatePartialAmount setAddress componentAddress quantity :
  (∀ e, schema_isValidAddress assert "setAddress" setAddress = Throw e →
        SetTokenAPI.calculateComponentAmountForIssuanceAsync assert setToken
          calculatePartialAmount setAddress componentAddress quantity = Throw e) ∧
  (∀ e, schema_isValidAddress assert "setAddress" setAddress = Ok tt →
        schema_isValidAddress assert "componentAddress" componentAddress = Throw e →
        SetTokenAPI.calculateComponentAmountForIssuanceAsync assert setToken
          calculatePartialAmount setAddress componentAddress quantity = Throw e) ∧
  (schema_isValidAddress assert "setAddress" setAddress = Ok tt →
   schema_isValidAddress assert "componentAddress" componentAddress = Ok tt →
   quantity ≤ 0 →
   SetTokenAPI.calculateComponentAmountForIssuanceAsync assert setToken
     calculatePartialAmount setAddress componentAddress quantity
   = Throw (QUANTITY_NEEDS_TO_BE_POSITIVE quantity)).
Proof.
  unfold SetTokenAPI.calculateComponentAmountForIssuanceAsync,
    SetTokenAPI.assertCalculateUnitTransferred.
  split_and!.
  - intros e Hset. by rewrite Hset.
  - intros e Hset Hcomponent. by rewrite Hset, Hcomponent.
  - intros Hset Hcomponent Hquantity. rewrite Hset, Hcomponent. simpl.
    by rewrite greaterThanZero_nonpositive.
Qed.

(** X15: [calculateComponentAmountForIssuanceAsync] never returns an amount
    for an address that is not a component.  If it returns [amount], both
    addresses are valid, the quantity is positive, the component occurs in
    the Set, and [amount] is [calculatePartialAmount] of the unit at the
    component's first index, the quantity and the natural unit. *)
Theorem calculateComponentAmountForIssuanceAsync_returns assert setToken
    calculatePartialAmount setAddress componentAddress quantity amount :
  SetTokenAPI.calculateComponentAmountForIssuanceAsync assert setToken
    calculatePartialAmount setAddress componentAddress quantity = Ok amount →
  schema_isValidAddress assert "setAddress" setAddress = Ok tt ∧
  schema_isValidAddress assert "componentAddress" componentAddress = Ok tt ∧
  0 < quantity ∧
  ∃ (index : nat) componentUnit,
    getComponents setToken setAddress !! index = Some componentAddress ∧
    (∀ j : nat, (j < index)%nat →
       getComponents setToken setAddress !! j ≠ Some componentAddress) ∧
    getUnits setToken setAddress !! index = Some componentUnit ∧
    amount = calculatePartialAmount componentUnit quantity
               (naturalUnit setToken setAddress).
Proof.
  intros Hrun.
  destruct (schema_cases (schema_isValidAddress assert "setAddress" setAddress))
    as [Hset|[e Hset]];
    [|by unfold SetTokenAPI.calculateComponentAmountForIssuanceAsync,
        SetTokenAPI.assertCalculateUnitTransferred in Hrun; rewrite Hset in Hrun].
  destruct (schema_cases
              (schema_isValidAddress assert "componentAddress" componentAddress))
    as [Hcomponent|[e Hcomponent]];
    [|by unfold SetTokenAPI.calculateComponentAmountForIssuanceAsync,
        SetTokenAPI.assertCalculateUnitTransferred in Hrun;
        rewrite Hset, Hcomponent in Hrun].
  destruct (Z.le_gt_cases quantity 0) as [Hnonpositive|Hpos].
  { unfold SetTokenAPI.calculateComponentAmountForIssuanceAsync,
      SetTokenAPI.assertCalculateUnitTransferred in Hrun.
    rewrite Hset, Hcomponent in Hrun. simpl in Hrun.
    by rewrite greaterThanZero_nonpositive in Hrun. }
  split_and!; [done | done | lia |].
  unfold SetTokenAPI.calculateComponentAmountForIssuanceAsync,
    SetTokenAPI.assertCalculateUnitTransferred in Hrun.
  rewrite Hset, Hcomponent in Hrun. simpl in Hrun.
  rewrite greaterThanZero_positive in Hrun by lia. simpl in Hrun.
  destruct (decide (componentAddress ∈ getComponents setToken setAddress))
    as [Hin|Hout].
  - apply indexOf_present in Hin as (index & Hindex & Hlookup & Hfirst).
    rewrite Hindex in Hrun. rewrite (proj2 (Z.ltb_ge _ _)) in Hrun by lia.
    simpl in Hrun.
    rewrite calculateComponentAmountsForIssuanceAsync_valid in Hrun by (done || lia).
    simpl in Hrun. rewrite at_index_of_nat, list_lookup_imap in Hrun.
    destruct (getUnits setToken setAddress !! index) as [componentUnit|] eqn:Hunit;
      [|done].
    simpl in Hrun. exists index, componentUnit. by simplify_eq.
  - apply indexOf_absent in Hout. by rewrite Hout in Hrun.
Qed.

Lemma calculateComponentAmountForIssuanceAsync_returns_scenario :
  schema_isValidAddress Scenario.acceptAll "setAddress" Scenario.rebalancingSet
    = Ok tt ∧
  schema_isValidAddress Scenario.acceptAll "componentAddress" Scenario.componentB
    = Ok tt ∧
  0 < 100 ∧
  ∃ (index : nat) componentUnit,
    [Scenario.componentA; Scenario.componentB] !! index = Some Scenario.componentB ∧
    (∀ j : nat, (j < index)%nat →
       [Scenario.componentA; Scenario.componentB] !! j ≠ Some Scenario.componentB) ∧
    [1; 2] !! index = Some componentUnit ∧
    20 = Scenario.partialAmount componentUnit 100 10.
Proof.
  apply (calculateComponentAmountForIssuanceAsync_returns Scenario.acceptAll
           Scenario.setToken Scenario.partialAmount Scenario.rebalancingSet
           Scenario.componentB 100 20).
  reflexivity.
Defined.

(** X16: if the Set reports fewer units than components and the component
    asked for sits past the last unit, [calculateComponentAmountForIssuanceAsync]
    fails on reading [unit] of [undefined], although the component belongs
    to the Set. *)
Theorem calculateComponentAmountForIssuanceAsync_past_units assert setToken
    calculatePartialAmount setAddress componentAddress quantity (index : nat) :
  schema_isValidAddress assert "setAddress" setAddress = Ok tt →
  schema_isValidAddress assert "componentAddress" componentAddress = Ok tt →
  0 < quantity →
  getComponents setToken setAddress !! index = Some componentAddress →
  (∀ j : nat, (j < index)%nat →
     getComponents setToken setAddress !! j ≠ Some componentAddress) →
  (length (getUnits setToken setAddress) ≤ index)%nat →
  SetTokenAPI.calculateComponentAmountForIssuanceAsync assert setToken
    calculatePartialAmount setAddress componentAddress quantity
  = Throw (TYPE_ERROR_UNDEFINED "unit").
Proof.
  intros Hset Hcomponent Hpos Hlookup Hfirst Hshort.
  destruct (indexOf_present (getComponents setToken setAddress) componentAddress)
    as (index' & Hindex & Hlookup' & Hfirst').
  { by eapply list_elem_of_lookup_2. }
  assert (index' = index) as ->.
  { destruct (Nat.lt_trichotomy index' index) as [Hlt|[Heq|Hgt]]; [|done|].
    - by destruct (Hfirst index' Hlt).
    - by destruct (Hfirst' index Hgt). }
  unfold SetTokenAPI.calculateComponentAmountForIssuanceAsync,
    SetTokenAPI.assertCalculateUnitTransferred.
  rewrite Hset, Hcomponent. simpl. rewrite greaterThanZero_positive by done.
  simpl. rewrite Hindex. rewrite (proj2 (Z.ltb_ge _ _)) by lia. simpl.
  rewrite calculateComponentAmountsForIssuanceAsync_valid by done. simpl.
  rewrite at_index_of_nat, list_lookup_imap.
  by rewrite (lookup_ge_None_2 _ _ Hshort).
Qed.

Lemma calculateComponentAmountForIssuanceAsync_past_units_scenario :
  SetTokenAPI.calculateComponentAmountForIssuanceAsync Scenario.acceptAll
    Scenario.lopsidedSet Scenario.partialAmount Scenario.rebalancingSet
    Scenario.stranger 100
  = Throw (TYPE_ERROR_UNDEFINED "unit").
Proof.
  apply (calculateComponentAmountForIssuanceAsync_past_units Scenario.acceptAll
           Scenario.lopsidedSet Scenario.partialAmount Scenario.rebalancingSet
           Scenario.stranger 100 2%nat); try reflexivity.
  intros [|[|j]] Hj; simpl; first [discriminate | lia].
Defined.

(** X17: with [ZERO] the number 0 and a valid address,
    [isMultipleOfNaturalUnitAsync] returns for a positive quantity whether
    the natural unit is not zero and divides the quantity, and throws
    [QUANTITY_NEEDS_TO_BE_POSITIVE] for a quantity that is not positive,
    zero included, multiple or not. *)
Theorem isMultipleOfNaturalUnitAsync_divides assert setToken ZERO setAddress quantity :
  ZERO = 0 →
  schema_isValidAddress assert "setAddress" setAddress = Ok tt →
  (0 < quantity →
   ∃ answer : bool,
     SetTokenAPI.isMultipleOfNaturalUnitAsync assert setToken ZERO setAddress quantity
       = Ok answer ∧
     (answer = true ↔
      naturalUnit setToken setAddress ≠ 0 ∧
      (naturalUnit setToken setAddress | quantity))) ∧
  (quantity ≤ 0 →
   SetTokenAPI.isMultipleOfNaturalUnitAsync assert setToken ZERO setAddress quantity
     = Throw (QUANTITY_NEEDS_TO_BE_POSITIVE quantity)).
Proof.
  intros -> Hset.
  unfold SetTokenAPI.isMultipleOfNaturalUnitAsync,
    SetTokenAPI.assertIsMultipleOfNaturalUnitAsync.
  rewrite Hset. simpl. split.
  - intros Hpos. rewrite greaterThanZero_positive by done. simpl.
    eexists. split; [done|].
    unfold BigNumber.modulo, BigNumber.eqNaN, BigNumber.eq.
    destruct (Z.eqb_spec (naturalUnit setToken setAddress) 0) as [Hzero|Hnonzero].
    + split; [done | intros [Hnonzero _]; by destruct Hnonzero].
    + rewrite Z.eqb_eq, (Z.rem_divide _ _ Hnonzero).
      split; [intros Hdivides; by split | intros [_ Hdivides]; exact Hdivides].
  - intros Hnonpositive. by rewrite greaterThanZero_nonpositive.
Qed.

Lemma isMultipleOfNaturalUnitAsync_divides_scenario :
  (0 < 25 →
   ∃ answer : bool,
     SetTokenAPI.isMultipleOfNaturalUnitAsync Scenario.acceptAll Scenario.setToken 0
       Scenario.rebalancingSet 25 = Ok answer ∧
     (answer = true ↔ 10 ≠ 0 ∧ (10 | 25))) ∧
  (25 ≤ 0 →
   SetTokenAPI.isMultipleOfNaturalUnitAsync Scenario.acceptAll Scenario.setToken 0
     Scenario.rebalancingSet 25
   = Throw (QUANTITY_NEEDS_TO_BE_POSITIVE 25)).
Proof.
  apply (isMultipleOfNaturalUnitAsync_divides Scenario.acceptAll Scenario.setToken 0
           Scenario.rebalancingSet 25); reflexivity.
Defined.

(** ** The details of a Set *)

Lemma getDetails_valid assert setToken factory erc20_name erc20_symbol setAddress :
  schema_isValidAddress assert "setAddress" setAddress = Ok tt →
  SetTokenAPI.getDetails assert setToken factory erc20_name erc20_symbol setAddress
  = Ok {| SetDetails.address := setAddress;
          SetDetails.factoryAddress := factory setAddress;
          SetDetails.name := erc20_name setAddress;
          SetDetails.symbol := erc20_symbol setAddress;
          SetDetails.naturalUnit := naturalUnit setToken setAddress;
          SetDetails.components :=
            imap (λ idx address,
                    {| DetailedComponent.address := address;
                       DetailedComponent.unit :=
                         getUnits setToken setAddress !! idx |})
                 (getComponents setToken setAddress) |}.
Proof. intros Hset. unfold SetTokenAPI.getDetails. by rewrite Hset. Qed.

(** X18: for a valid address, [getDetails] agrees with the single queries:
    its factory address, natural unit and component addresses are what
    [getFactoryAsync], [getNaturalUnitAsync] and [getComponentsAsync]
    return, its components come one for each component address, in order,
    each with the unit at the same index, and for a Set with as many units
    as components their units are the list [getUnitsAsync] returns. *)
Theorem getDetails_agrees assert setToken factory erc20_name erc20_symbol setAddress :
  schema_isValidAddress assert "setAddress" setAddress = Ok tt →
  ∃ details,
    SetTokenAPI.getDetails assert setToken factory erc20_name erc20_symbol setAddress
      = Ok details ∧
    SetDetails.address details = setAddress ∧
    SetTokenAPI.getFactoryAsync assert factory setAddress
      = Ok (SetDetails.factoryAddress details) ∧
    SetTokenAPI.getNaturalUnitAsync assert setToken setAddress
      = Ok (SetDetails.naturalUnit details) ∧
    SetTokenAPI.getComponentsAsync assert setToken setAddress
      = Ok (DetailedComponent.address <$> SetDetails.components details) ∧
    (∀ (i : nat) entry,
       SetDetails.components details !! i = Some entry →
       DetailedComponent.unit entry = getUnits setToken setAddress !! i) ∧
    (length (getUnits setToken setAddress)
       = length (getComponents setToken setAddress) →
     ∃ units,
       SetTokenAPI.getUnitsAsync assert setToken setAddress = Ok units ∧
       DetailedComponent.unit <$> SetDetails.components details = Some <$> units).
Proof.
  intros Hset. eexists. split; [by apply getDetails_valid|]. simpl.
  unfold SetTokenAPI.getFactoryAsync, SetTokenAPI.getNaturalUnitAsync,
    SetTokenAPI.getComponentsAsync, SetTokenAPI.getUnitsAsync.
  rewrite Hset. simpl. split_and!; [done | done | done | | |].
  - f_equal. apply list_eq. intros i.
    rewrite list_lookup_fmap, list_lookup_imap.
    by destruct (getComponents setToken setAddress !! i).
  - intros i entry. rewrite list_lookup_imap.
    destruct (getComponents setToken setAddress !! i); [|done].
    simpl. by intros [= <-].
  - intros Hlen. eexists. split; [done|]. apply list_eq. intros i.
    rewrite !list_lookup_fmap, list_lookup_imap.
    destruct (getComponents setToken setAddress !! i) as [component|] eqn:Hc; simpl.
    + destruct (lookup_lt_is_Some_2 (getUnits setToken setAddress) i)
        as [componentUnit Hunit].
      { rewrite Hlen. by eapply lookup_lt_Some. }
      by rewrite Hunit.
    + rewrite lookup_ge_None_2; [done|].
      rewrite Hlen. by apply lookup_ge_None_1.
Qed.

Lemma getDetails_agrees_scenario :
  ∃ details,
    SetTokenAPI.getDetails Scenario.acceptAll Scenario.setToken Scenario.factoryOf
      Scenario.nameOf Scenario.symbolOf Scenario.rebalancingSet = Ok details ∧
    SetDetails.address details = Scenario.rebalancingSet ∧
    SetTokenAPI.getFactoryAsync Scenario.acceptAll Scenario.factoryOf
      Scenario.rebalancingSet = Ok (SetDetails.factoryAddress details) ∧
    SetTokenAPI.getNaturalUnitAsync Scenario.acceptAll Scenario.setToken
      Scenario.rebalancingSet = Ok (SetDetails.naturalUnit details) ∧
    SetTokenAPI.getComponentsAsync Scenario.acceptAll Scenario.setToken
      Scenario.rebalancingSet
      = Ok (DetailedComponent.address <$> SetDetails.components details) ∧
    (∀ (i : nat) entry,
       SetDetails.components details !! i = Some entry →
       DetailedComponent.unit entry = [1; 2] !! i) ∧
    (length [1; 2] = length [Scenario.componentA; Scenario.componentB] →
     ∃ units,
       SetTokenAPI.getUnitsAsync Scenario.acceptAll Scenario.setToken
         Scenario.rebalancingSet = Ok units ∧
       DetailedComponent.unit <$> SetDetails.components details = Some <$> units).
Proof.
  apply (getDetails_agrees Scenario.acceptAll Scenario.setToken Scenario.factoryOf
           Scenario.nameOf Scenario.symbolOf Scenario.rebalancingSet).
  reflexivity.
Defined.

(** X19: the issuance amounts follow from the details.  For a valid address
    and a positive quantity, wherever [getDetails] lists a component with a
    unit, [calculateComponentAmountsForIssuanceAsync] has at the same index
    that component's address with
    [calculatePartialAmount(unit, quantity, naturalUnit)]. *)
Theorem amounts_follow_details assert setToken calculatePartialAmount factory
    erc20_name erc20_symbol setAddress quantity :
  schema_isValidAddress assert "setAddress" setAddress = Ok tt →
  0 < quantity →
  ∃ details amounts,
    SetTokenAPI.getDetails assert setToken factory erc20_name erc20_symbol setAddress
      = Ok details ∧
    SetTokenAPI.calculateComponentAmountsForIssuanceAsync assert setToken
      calculatePartialAmount setAddress quantity = Ok amounts ∧
    ∀ (i : nat) entry componentUnit,
      SetDetails.components details !! i = Some entry →
      DetailedComponent.unit entry = Some componentUnit →
      amounts !! i
      = Some {| Component.address := Some (DetailedComponent.address entry);
                Component.unit :=
                  calculatePartialAmount componentUnit quantity
                    (SetDetails.naturalUnit details) |}.
Proof.
  intros Hset Hpos. eexists _, _. split_and!.
  - by apply getDetails_valid.
  - by apply calculateComponentAmountsForIssuanceAsync_valid.
  - simpl. intros i entry componentUnit. rewrite !list_lookup_imap.
    destruct (getComponents setToken setAddress !! i) as [component|] eqn:Hc;
      [|done].
    simpl. intros [= <-]. simpl. intros Hunit. by rewrite Hunit.
Qed.

Lemma amounts_follow_details_scenario :
  ∃ details amounts,
    SetTokenAPI.getDetails Scenario.acceptAll Scenario.setToken Scenario.factoryOf
      Scenario.nameOf Scenario.symbolOf Scenario.rebalancingSet = Ok details ∧
    SetTokenAPI.calculateComponentAmountsForIssuanceAsync Scenario.acceptAll
      Scenario.setToken Scenario.partialAmount Scenario.rebalancingSet 100
      = Ok amounts ∧
    ∀ (i : nat) entry componentUnit,
      SetDetails.components details !! i = Some entry →
      DetailedComponent.unit entry = Some componentUnit →
      amounts !! i
      = Some {| Component.address := Some (DetailedComponent.address entry);
                Component.unit :=
                  Scenario.partialAmount componentUnit 100
                    (SetDetails.naturalUnit details) |}.
Proof.
  apply (amounts_follow_details Scenario.acceptAll Scenario.setToken
           Scenario.partialAmount Scenario.factoryOf Scenario.nameOf
           Scenario.symbolOf Scenario.rebalancingSet 100); [reflexivity | lia].
Defined.

(** X20: no query answers for a Set address that the schema refuses.  What
    [schema.isValidAddress('setAddress', ...)] throws is thrown by every
    query of [SetTokenAPI], whatever the chain holds at that address. *)
Theorem invalid_set_address_is_refused assert setToken calculatePartialAmount factory
    erc20_name erc20_symbol ZERO setAddress componentAddress quantity e :
  schema_isValidAddress assert "setAddress" setAddress = Throw e →
  SetTokenAPI.getFactoryAsync assert factory setAddress = Throw e ∧
  SetTokenAPI.getComponentsAsync assert setToken setAddress = Throw e ∧
  SetTokenAPI.getNaturalUnitAsync assert setToken setAddress = Throw e ∧
  SetTokenAPI.getUnitsAsync assert setToken setAddress = Throw e ∧
  SetTokenAPI.getDetails assert setToken factory erc20_name erc20_symbol setAddress
    = Throw e ∧
  SetTokenAPI.isMultipleOfNaturalUnitAsync assert setToken ZERO setAddress quantity
    = Throw e ∧
  SetTokenAPI.calculateComponentAmountsForIssuanceAsync assert setToken
    calculatePartialAmount setAddress quantity = Throw e ∧
  SetTokenAPI.calculateComponentAmountForIssuanceAsync assert setToken
    calculatePartialAmount setAddress componentAddress quantity = Throw e.
Proof.
  intros Hset.
  unfold SetTokenAPI.getFactoryAsync, SetTokenAPI.getComponentsAsync,
    SetTokenAPI.getNaturalUnitAsync, SetTokenAPI.getUnitsAsync,
    SetTokenAPI.getDetails, SetTokenAPI.isMultipleOfNaturalUnitAsync,
    SetTokenAPI.assertIsMultipleOfNaturalUnitAsync,
    SetTokenAPI.calculateComponentAmountsForIssuanceAsync,
    SetTokenAPI.assertcalculateComponentAmountsForIssuance,
    SetTokenAPI.calculateComponentAmountForIssuanceAsync,
    SetTokenAPI.assertCalculateUnitTransferred.
  by rewrite Hset.
Qed.

Lemma invalid_set_address_is_refused_scenario :
  SetTokenAPI.getFactoryAsync Scenario.lengthChecked Scenario.factoryOf "0x0"
    = Throw (TYPE_ERROR_UNDEFINED "setAddress") ∧
  SetTokenAPI.getComponentsAsync Scenario.lengthChecked Scenario.setToken "0x0"
    = Throw (TYPE_ERROR_UNDEFINED "setAddress") ∧
  SetTokenAPI.getNaturalUnitAsync Scenario.lengthChecked Scenario.setToken "0x0"
    = Throw (TYPE_ERROR_UNDEFINED "setAddress") ∧
  SetTokenAPI.getUnitsAsync Scenario.lengthChecked Scenario.setToken "0x0"
    = Throw (TYPE_ERROR_UNDEFINED "setAddress") ∧
  SetTokenAPI.getDetails Scenario.lengthChecked Scenario.setToken Scenario.factoryOf
    Scenario.nameOf Scenario.symbolOf "0x0"
    = Throw (TYPE_ERROR_UNDEFINED "setAddress") ∧
  SetTokenAPI.isMultipleOfNaturalUnitAsync Scenario.lengthChecked Scenario.setToken 0
    "0x0" 100
    = Throw (TYPE_ERROR_UNDEFINED "setAddress") ∧
  SetTokenAPI.calculateComponentAmountsForIssuanceAsync Scenario.lengthChecked
    Scenario.setToken Scenario.partialAmount "0x0" 100
    = Throw (TYPE_ERROR_UNDEFINED "setAddress") ∧
  SetTokenAPI.calculateComponentAmountForIssuanceAsync Scenario.lengthChecked
    Scenario.setToken Scenario.partialAmount "0x0" Scenario.componentA 100
    = Throw (TYPE_ERROR_UNDEFINED "setAddress").
Proof.
  apply (invalid_set_address_is_refused Scenario.lengthChecked Scenario.setToken
           Scenario.partialAmount Scenario.factoryOf Scenario.nameOf
           Scenario.symbolOf 0 "0x0" Scenario.componentA 100
           (TYPE_ERROR_UNDEFINED "setAddress")).
  reflexivity.
Defined.

(** ** What the bid checks leave unchecked *)

(** X21: neither bid check refuses a quantity for being zero or negative.
    With a minimum bid that is not zero and no negative remaining supply,
    every multiple of the minimum bid that is not positive, zero among
    them, passes both [bidIsMultipleOfMinimumBid] and
    [bidAmountLessThanRemainingSets]. *)
Theorem bid_checks_admit_nonpositive web3 rebalancingSetTokenAddress bidQuantity :
  let token := RebalancingSetTokenContract_at web3 rebalancingSetTokenAddress in
  minimumBid token ≠ 0 →
  0 ≤ remainingCurrentSets token →
  bidQuantity ≤ 0 →
  (minimumBid token | bidQuantity) →
  bidIsMultipleOfMinimumBid web3 rebalancingSetTokenAddress bidQuantity = Ok tt ∧
  bidAmountLessThanRemainingSets web3 rebalancingSetTokenAddress bidQuantity = Ok tt.
Proof.
  intros token Hminimum Hremaining Hbid Hdivides. split.
  - by apply bidIsMultipleOfMinimumBid_resolves.
  - rewrite bidAmountLessThanRemainingSets_run. fold token.
    case_decide; [lia | done].
Qed.

Lemma bid_checks_admit_nonpositive_scenario :
  bidIsMultipleOfMinimumBid (Scenario.chain 2 0 0 0 Scenario.poor)
    Scenario.rebalancingSet (-200) = Ok tt ∧
  bidAmountLessThanRemainingSets (Scenario.chain 2 0 0 0 Scenario.poor)
    Scenario.rebalancingSet (-200) = Ok tt.
Proof.
  apply (bid_checks_admit_nonpositive (Scenario.chain 2 0 0 0 Scenario.poor)
           Scenario.rebalancingSet (-200)); simpl; try lia.
  by exists (-2).
Defined.
